(** * DNS override through /etc/resolv.conf (daemon/service/dns, Linux)

    A shallow embedding of the resolv.conf back end of the daemon's DNS
    module: the two-slot rotation between [/etc/resolv.conf] and
    [/etc/resolv.conf.ivpnsave], the writer of the override file, and the
    public operations built from them ([rconf_implInitialize],
    [rconf_implSetManual], [rconf_implDeleteManual], [rconf_implPause],
    [rconf_implResume]).

    The file system is a finite map from paths to contents.  Every Go
    function becomes a state-passing function over a [World]; a Go [error]
    result is an [option error] ([None] is [nil]).  The system calls that
    can fail for reasons outside the file map (rename, open, write, sync)
    read their outcome from a fault schedule carried by the world, so that
    every error branch of the source can be reached.  The world also keeps
    the list of the calls made.  Messages logged with [log.Info] are left
    out; the monitor task is kept as the settings it holds, and one turn
    of its loop is [monitor_reassert]. *)

From Stdlib Require Import String Ascii List Arith Lia ZArith DecimalString.
From stdpp Require Import base option list gmap strings.

Local Open Scope string_scope.
Local Open Scope list_scope.
#[local] Set Warnings "-clear-no-such-hyp".

(** ** Errors *)

Inductive Errno := ENOENT | EACCES | EPERM | EROFS | ENOSPC | EIO | EBUSY.

(** Go error values: the errors of package os, and [fmt.Errorf] with one
    [%w] verb, kept as the text before the verb, the text after it and the
    wrapped error. *)
Inductive error :=
| PathError (op path : string) (errno : Errno)
| LinkError (op old new : string) (errno : Errno)
| Errorf (before after : string) (cause : error).

Definition Errno_text (e : Errno) : string :=
  match e with
  | ENOENT => "no such file or directory"
  | EACCES => "permission denied"
  | EPERM => "operation not permitted"
  | EROFS => "read-only file system"
  | ENOSPC => "no space left on device"
  | EIO => "input/output error"
  | EBUSY => "device or resource busy"
  end.

(** [err.Error()] *)
Fixpoint Error (e : error) : string :=
  match e with
  | PathError op path errno => op +:+ " " +:+ path +:+ ": " +:+ Errno_text errno
  | LinkError op old new errno =>
      op +:+ " " +:+ old +:+ " " +:+ new +:+ ": " +:+ Errno_text errno
  | Errorf before after cause => before +:+ Error cause +:+ after
  end.

(** The innermost error of a chain of [%w] wrappers. *)
Fixpoint root_cause (e : error) : error :=
  match e with
  | Errorf _ _ cause => root_cause cause
  | _ => e
  end.

(** [wraps e c]: [c] is reached from [e] by unwrapping zero or more times
    (what [errors.Is] looks for). *)
Inductive wraps : error -> error -> Prop :=
| wraps_refl e : wraps e e
| wraps_step before after e c : wraps e c -> wraps (Errorf before after e) c.

(** ** DNS settings *)

(** Modelled from the spec: the declaration of [DnsSettings] and of its
    methods [IsEmpty] and [Ip] is in package dns outside the files at hand.
    The settings are zero or more server addresses plus transport hints,
    and settings without an address are empty.  An address is kept in the
    text form that [net.IP.String] prints. *)
Record DnsSettings := mkDnsSettings {
  Addresses : list string;
  Transport : string
}.

(** [DnsSettings{}] *)
Definition DnsSettings_zero : DnsSettings :=
  {| Addresses := []; Transport := "" |}.

Definition IsEmpty (d : DnsSettings) : bool :=
  match Addresses d with
  | [] => true
  | _ :: _ => false
  end.

(** Modelled from the spec: [d.Ip().String()].  [Ip] yields a single
    [net.IP]; it is taken to be the first address supplied, and the nil IP
    prints as [<nil>]. *)
Definition Ip_String (d : DnsSettings) : string :=
  match Addresses d with
  | [] => "<nil>"
  | a :: _ => a
  end.

(** ** The world *)

(** An injected failure of a system call; [written] is the number of bytes
    a failing write put into the file before it stopped. *)
Record Fault := mkFault {
  fault_errno : Errno;
  written : nat
}.

Inductive Event :=
| EvStat (path : string)
| EvRename (old new : string)
| EvOpenFile (path : string)
| EvWriteString (path : string)
| EvSync (path : string)
| EvGetSnapEnvs
| EvIsSnapAbleManageResolvconf
| EvLogError (msg : string).

(** What the process cannot change: its name and the answers of package
    platform, which is not among the files at hand and is taken as a
    parameter. *)
Record Env := mkEnv {
  Args0 : string;                                  (* os.Args[0] *)
  SnapEnvs : bool;                                 (* platform.GetSnapEnvs() != nil *)
  SnapAbleManageResolvconf : bool * string * option error
    (* allowed, userErrMsgIfNotAllowed, err *)
}.

Record World := mkWorld {
  env : Env;
  files : gmap string string;       (* path -> content *)
  faults : list (option Fault);     (* outcomes of the coming fallible calls *)
  monitor : option DnsSettings;     (* the running change monitor, if any *)
  trace : list Event                (* system calls and probes made so far *)
}.

Definition set_files (fs : gmap string string) (w : World) : World :=
  {| env := env w; files := fs; faults := faults w;
     monitor := monitor w; trace := trace w |}.

Definition set_faults (l : list (option Fault)) (w : World) : World :=
  {| env := env w; files := files w; faults := l;
     monitor := monitor w; trace := trace w |}.

Definition set_monitor (m : option DnsSettings) (w : World) : World :=
  {| env := env w; files := files w; faults := faults w;
     monitor := m; trace := trace w |}.

Definition add_event (e : Event) (w : World) : World :=
  {| env := env w; files := files w; faults := faults w;
     monitor := monitor w; trace := trace w ++ [e] |}.

(** ** State passing *)

Definition M (A : Type) : Type := World -> A * World.

Definition ret {A} (a : A) : M A := fun w => (a, w).

Definition bind {A B} (c : M A) (k : A -> M B) : M B :=
  fun w => let (a, w') := c w in k a w'.

Notation "'do' x <- c ; k" := (bind c (fun x => k))
  (at level 10, x name, c at level 100, k at level 200).
Notation "'do' ( x , y ) <- c ; k" := (bind c (fun '(x, y) => k))
  (at level 10, x name, y name, c at level 100, k at level 200).
Notation "'do' ( x , y , z ) <- c ; k" := (bind c (fun '(x, y, z) => k))
  (at level 10, x name, y name, z name, c at level 100, k at level 200).
Notation "c ;; k" := (bind c (fun _ => k))
  (at level 100, k at level 200, right associativity).

Definition emit (e : Event) : M unit := fun w => (tt, add_event e w).

(** The outcome of the next fallible call: the head of the schedule, and
    success once the schedule is used up. *)
Definition next_fault : M (option Fault) := fun w =>
  match faults w with
  | [] => (None, w)
  | f :: rest => (f, set_faults rest w)
  end.

(** ** System calls *)

Definition nl : string := String (ascii_of_nat 10) EmptyString.

(** [os.Stat(path)]: only the error is used by the callers.  It fails
    exactly when nothing is at [path]. *)
Definition os_Stat (path : string) : M (option error) :=
  emit (EvStat path) ;;
  fun w =>
    match files w !! path with
    | Some _ => (None, w)
    | None => (Some (PathError "stat" path ENOENT), w)
    end.

(** [os.Rename(old, new)]: moves the content of [old] to [new], replacing
    what was there; on failure nothing changes. *)
Definition os_Rename (old new : string) : M (option error) :=
  emit (EvRename old new) ;;
  do f <- next_fault;
  match f with
  | Some ft => ret (Some (LinkError "rename" old new (fault_errno ft)))
  | None => fun w =>
      match files w !! old with
      | None => (Some (LinkError "rename" old new ENOENT), w)
      | Some c => (None, set_files (<[new := c]> (delete old (files w))) w)
      end
  end.

(** An open file is known by its path: the only file the code opens is
    opened with O_TRUNC and written once from its start. *)
Definition File := string.

(** [os.OpenFile(path, O_CREATE|O_WRONLY|O_TRUNC, perm)]: on success the
    file exists and is empty. *)
Definition os_OpenFile (path : string) : M (File * option error) :=
  emit (EvOpenFile path) ;;
  do f <- next_fault;
  match f with
  | Some ft => ret (path, Some (PathError "open" path (fault_errno ft)))
  | None => fun w => ((path, None), set_files (<[path := ""]> (files w)) w)
  end.

Definition file_append (out : File) (data : string) (w : World) : World :=
  set_files (<[out := default "" (files w !! out) +:+ data]> (files w)) w.

(** [out.WriteString(data)]: a failing write may leave a prefix of [data]
    in the file. *)
Definition File_WriteString (out : File) (data : string) : M (option error) :=
  emit (EvWriteString out) ;;
  do f <- next_fault;
  match f with
  | Some ft => fun w =>
      (Some (PathError "write" out (fault_errno ft)),
       file_append out (substring 0 (written ft) data) w)
  | None => fun w => (None, file_append out data w)
  end.

(** [out.Sync()] *)
Definition File_Sync (out : File) : M (option error) :=
  emit (EvSync out) ;;
  do f <- next_fault;
  match f with
  | Some ft => ret (Some (PathError "sync" out (fault_errno ft)))
  | None => ret None
  end.

(** ** Package platform *)

Definition platform_GetSnapEnvs : M bool :=
  emit EvGetSnapEnvs ;; fun w => (SnapEnvs (env w), w).

Definition platform_IsSnapAbleManageResolvconf : M (bool * string * option error) :=
  emit EvIsSnapAbleManageResolvconf ;;
  fun w => (SnapAbleManageResolvconf (env w), w).

Definition log_Error (msg : string) : M unit := emit (EvLogError msg).

(** ** The resolv.conf back end *)

Definition resolvFile : string := "/etc/resolv.conf".
Definition resolvBackupFile : string := "/etc/resolv.conf.ivpnsave".

(** The receiving end of channel [done] is the monitor task, which waits
    on it at each of its suspension points.  The model takes the task to be
    suspended whenever an operation starts, so that the stop request is
    taken when a monitor runs and dropped when none does. *)
Definition rconf_stopDNSChangeMonitoring : M unit :=
  fun w => (tt, set_monitor None w).

Definition rconf_isBackupExists : M bool :=
  do err <- os_Stat resolvBackupFile;
  ret (match err with None => true | Some _ => false end).

Definition rconf_createBackup (isOverwriteIfExists : bool) : M (bool * option error) :=
  do err <- os_Stat resolvFile;
  match err with
  | Some err =>
      ret (false,
           Some (Errorf "failed to backup DNS configuration (file availability check failed): "
                   "" err))
  | None =>
      do err <- os_Stat resolvBackupFile;
      if match err with None => negb isOverwriteIfExists | Some _ => false end
      then ret (false, None)
      else
        do err <- os_Rename resolvFile resolvBackupFile;
        match err with
        | Some err => ret (false, Some (Errorf "failed to backup DNS configuration: " "" err))
        | None => ret (true, None)
        end
  end.

Definition rconf_restoreBackup : M (option error) :=
  do err <- os_Stat resolvBackupFile;
  match err with
  | Some _ => ret None
  | None =>
      do err <- os_Rename resolvBackupFile resolvFile;
      match err with
      | Some err => ret (Some (Errorf "failed to restore DNS configuration: " "" err))
      | None => ret None
      end
  end.

Definition rconf_implDeleteManual : M (option error) :=
  rconf_stopDNSChangeMonitoring ;;
  rconf_restoreBackup.

(** The body of the override file, as [fmt.Sprintf] builds it from
    [os.Args[0]] and [dnsCfg.Ip().String()]. *)
Definition resolv_header (args0 : string) : string :=
  "# resolv.conf autogenerated by '" +:+ args0 +:+ "'" +:+ nl.

Definition nameserver_line (address : string) : string :=
  "nameserver " +:+ address +:+ nl.

Definition resolv_body (args0 : string) (dnsCfg : DnsSettings) : string :=
  resolv_header args0 +:+ nl +:+ nameserver_line (Ip_String dnsCfg).

(** The closure [createBackupIfNotExists] of [rconf_implSetManual]. *)
Definition createBackupIfNotExists : M (bool * option error) :=
  let isOwerwriteIfExists := false in
  rconf_createBackup isOwerwriteIfExists.

(** The closure [saveNewConfig] of [rconf_implSetManual]; it captures
    [dnsCfg].  The result of its own call of [createBackupIfNotExists] is
    dropped. *)
Definition saveNewConfig (dnsCfg : DnsSettings) : M (option error) :=
  createBackupIfNotExists ;;
  do (out, err) <- os_OpenFile resolvFile;
  match err with
  | Some err => ret (Some (Errorf "failed to update DNS configuration (" ")" err))
  | None =>
      do args0 <- (fun w => (Args0 (env w), w));
      do err <- File_WriteString out (resolv_body args0 dnsCfg);
      match err with
      | Some err => ret (Some (Errorf "failed to change DNS configuration: " "" err))
      | None =>
          do err <- File_Sync out;
          match err with
          | Some err => ret (Some (Errorf "failed to change DNS configuration: " "" err))
          | None => ret None
          end
      end
  end.

(** [go func() { ... }()]: the monitor task starts and keeps [dnsCfg]. *)
Definition start_monitor (dnsCfg : DnsSettings) : M unit :=
  fun w => (tt, set_monitor (Some dnsCfg) w).

(** One turn of the monitor's loop, after a change of the live file was
    seen and the two seconds went by without a stop request: the
    configuration is written again and a failure is only logged. *)
Definition monitor_reassert : M unit :=
  fun w =>
    match monitor w with
    | None => (tt, w)
    | Some dnsCfg =>
        (do err <- saveNewConfig dnsCfg;
         match err with
         | Some err => log_Error (Error err)
         | None => ret tt
         end) w
    end.

Definition rconf_implSetManual (dnsCfg : DnsSettings) : M (DnsSettings * option error) :=
  rconf_stopDNSChangeMonitoring ;;
  if IsEmpty dnsCfg then
    do err <- rconf_implDeleteManual;
    ret (DnsSettings_zero, err)
  else
    do (created, err) <- createBackupIfNotExists;
    match err with
    | Some err =>
        do snap <- platform_GetSnapEnvs;
        if snap then
          do (allowed, userErrMsgIfNotAllowed, snapCheckErr) <-
             platform_IsSnapAbleManageResolvconf;
          match snapCheckErr with
          | Some e => log_Error ("IsSnapAbleManageResolvconf: " +:+ Error e)
          | None => ret tt
          end ;;
          if negb allowed && Nat.ltb 0 (String.length userErrMsgIfNotAllowed)
          then ret (DnsSettings_zero,
                    Some (Errorf "" (nl +:+ nl +:+ userErrMsgIfNotAllowed) err))
          else ret (DnsSettings_zero, Some err)
        else ret (DnsSettings_zero, Some err)
    | None =>
        do err <- saveNewConfig dnsCfg;
        match err with
        | Some err => ret (DnsSettings_zero, Some err)
        | None =>
            start_monitor dnsCfg ;;
            ret (dnsCfg, None)
        end
    end.

Definition rconf_implInitialize : M (option error) :=
  do err <- os_Stat resolvBackupFile;
  match err with
  | Some _ => ret None
  | None =>
      do err <- rconf_implDeleteManual;
      match err with
      | Some err => ret (Some (Errorf "failed to restore DNS to default: " "" err))
      | None => ret None
      end
  end.

Definition rconf_implPause : M (option error) :=
  do exists_ <- rconf_isBackupExists;
  if negb exists_ then ret None
  else
    rconf_stopDNSChangeMonitoring ;;
    do ret_ <- rconf_restoreBackup;
    ret ret_.

Definition rconf_implResume : M (option error) := ret None.

(** ** Views of a world *)

Definition live (w : World) : option string := files w !! resolvFile.
Definition backup (w : World) : option string := files w !! resolvBackupFile.

(** Two worlds that differ at most in the record of the calls made. *)
Definition same_state (w1 w2 : World) : Prop :=
  env w1 = env w2 /\ files w1 = files w2 /\
  faults w1 = faults w2 /\ monitor w1 = monitor w2.

(** The outcome the schedule holds for the next fallible call. *)
Definition upcoming (w : World) : option Fault :=
  match faults w with
  | [] => None
  | f :: _ => f
  end.

Definition is_rename (e : Event) : bool :=
  match e with EvRename _ _ => true | _ => false end.

Definition is_probe (e : Event) : bool :=
  match e with
  | EvGetSnapEnvs | EvIsSnapAbleManageResolvconf => true
  | _ => false
  end.

Definition count_events (p : Event -> bool) (t : list Event) : nat :=
  length (List.filter p t).

(** ** The public operations as one type *)

Inductive Operation :=
| OpInitialize
| OpSetManual (dnsCfg : DnsSettings)
| OpDeleteManual
| OpPause
| OpResume.

Definition run (op : Operation) : M (option error) :=
  match op with
  | OpInitialize => rconf_implInitialize
  | OpSetManual dnsCfg => do r <- rconf_implSetManual dnsCfg; ret (snd r)
  | OpDeleteManual => rconf_implDeleteManual
  | OpPause => rconf_implPause
  | OpResume => rconf_implResume
  end.


(** What the caller gets when the backup step failed with [err]: the
    error itself, or the error with the remediation text of package
    platform after it. *)
Definition backup_failure (e : Env) (err : error) : error :=
  let '(allowed, userErrMsgIfNotAllowed, _) := SnapAbleManageResolvconf e in
  if SnapEnvs e && negb allowed && Nat.ltb 0 (String.length userErrMsgIfNotAllowed)
  then Errorf "" (nl +:+ nl +:+ userErrMsgIfNotAllowed) err
  else err.

(** The three operations that only restore. *)
Definition restores (op : Operation) : bool :=
  match op with
  | OpInitialize | OpDeleteManual | OpPause => true
  | _ => false
  end.

(** The error of [rconf_createBackup] when nothing is at the live path. *)
Definition source_missing : error :=
  Errorf "failed to backup DNS configuration (file availability check failed): " ""
    (PathError "stat" resolvFile ENOENT).

(** ** The specification's words *)

(** The body the specification describes: the header comment, then one
    nameserver line per address of the settings, in the order given. *)
Definition spec_body (args0 : string) (s : DnsSettings) : string :=
  resolv_header args0 +:+ nl +:+ String.concat "" (map nameserver_line (Addresses s)).

(** A content is override content when the writer can have produced it. *)
Definition is_override (args0 content : string) : Prop :=
  exists s, content = resolv_body args0 s.

Definition holds_override (w : World) : Prop :=
  exists c, live w = Some c /\ is_override (Args0 (env w)) c.

(** The invariant of the data model: Backup exists iff the live path
    holds override content. *)
Definition backup_marks_override (w : World) : Prop :=
  is_Some (backup w) <-> holds_override w.

(** The Backup, when there is one, is not itself override content. *)
Definition backup_is_original (w : World) : Prop :=
  forall b, backup w = Some b -> ~ is_override (Args0 (env w)) b.


(** ** Worlds to run the code in *)

Definition env_plain : Env :=
  {| Args0 := "/usr/bin/ivpn-service";
     SnapEnvs := false;
     SnapAbleManageResolvconf := (true, "", None) |}.

Definition env_snap : Env :=
  {| Args0 := "/snap/ivpn/current/bin/ivpn-service";
     SnapEnvs := true;
     SnapAbleManageResolvconf :=
       (false, "Run: sudo snap connect ivpn:network-control", None) |}.

Definition original_conf : string := "nameserver 8.8.8.8" +:+ nl.

Definition tunnel_dns : DnsSettings :=
  {| Addresses := ["10.0.0.1"]; Transport := "" |}.

Definition second_dns : DnsSettings :=
  {| Addresses := ["172.16.0.1"]; Transport := "" |}.

Definition two_servers : DnsSettings :=
  {| Addresses := ["10.0.0.1"; "10.0.0.2"]; Transport := "" |}.

Definition no_dns : DnsSettings :=
  {| Addresses := []; Transport := "DoH" |}.

(** The original file alone, with the given schedule of faults. *)
Definition world_original (e : Env) (fl : list (option Fault)) : World :=
  {| env := e; files := {[ resolvFile := original_conf ]};
     faults := fl; monitor := None; trace := [] |}.

(** An override in place, the original kept as the Backup. *)
Definition world_overridden (e : Env) (fl : list (option Fault)) : World :=
  {| env := e;
     files := <[ resolvBackupFile := original_conf ]>
                {[ resolvFile := resolv_body (Args0 e) tunnel_dns ]};
     faults := fl; monitor := Some tunnel_dns; trace := [] |}.

(** No resolver file at all. *)
Definition world_bare (e : Env) : World :=
  {| env := e; files := ∅; faults := []; monitor := None; trace := [] |}.

(** Another process rewrites the live file. *)
Definition external_write (content : string) : M unit :=
  fun w => (tt, set_files (<[resolvFile := content]> (files w)) w).

Definition busy : option Fault := Some {| fault_errno := EBUSY; written := 0 |}.
Definition disk_full : option Fault := Some {| fault_errno := ENOSPC; written := 0 |}.

(** * The rest of the daemon code at hand *)

(** ** More views of the resolv.conf back end *)

(** The calls that change the content of a file. *)
Definition is_content_call (e : Event) : bool :=
  match e with
  | EvOpenFile _ | EvWriteString _ | EvSync _ => true
  | _ => false
  end.

Definition other_path (p : string) : Prop :=
  p <> resolvFile /\ p <> resolvBackupFile.

(** Whether the operation tells the monitor to stop in world [w]. *)
Definition stops_monitor (op : Operation) (w : World) : bool :=
  match op with
  | OpDeleteManual => true
  | OpInitialize | OpPause => bool_decide (is_Some (backup w))
  | _ => false
  end.



(** ** Connection parameters (daemon/service/types/connection.go) *)

(** [%d] of an integer. *)
Definition fmt_d (n : Z) : string := NilZero.string_of_int (Z.to_int n).

(** [ServerSelectionEnum] is an [int] with three named values. *)
Definition ServerSelectionEnum := Z.
Definition Default : ServerSelectionEnum := 0%Z.
Definition Fastest : ServerSelectionEnum := 1%Z.
Definition Random : ServerSelectionEnum := 2%Z.

Record AntiTrackerMetadata := mkAntiTrackerMetadata {
  Enabled : bool;
  Hardcore : bool;
  AntiTrackerBlockListName : string
}.

Definition AntiTrackerMetadata_IsEnabled (a : AntiTrackerMetadata) : bool :=
  Enabled a.

Definition AntiTrackerMetadata_Equal (a b : AntiTrackerMetadata) : bool :=
  Bool.eqb (Enabled a) (Enabled b) && Bool.eqb (Hardcore a) (Hardcore b) &&
  String.eqb (AntiTrackerBlockListName a) (AntiTrackerBlockListName b).

Record ConnectMetadata := mkConnectMetadata {
  ServerSelectionEntry : ServerSelectionEnum;
  ServerSelectionExit : ServerSelectionEnum;
  AntiTracker : AntiTrackerMetadata;
  FastestGatewaysExcludeList : list string
}.

Section ConnectionParams.

(** Types and constants of packages that are not among the files at
    hand: [api_types.ServerListItem], [obfsproxy.Config],
    [v2r.V2RayTransportType]; the values [vpn.OpenVPN] and
    [vpn.WireGuard] of the integer type [vpn.Type]; and the outcome of
    [rand.Int(rand.Reader, big.NewInt(n))], a number or an error. *)
Context {ServerListItem ObfsConfig V2RayTransportType : Type}.
Variables vpn_OpenVPN vpn_WireGuard : Z.
Variable rand_Int : Z -> option Z.

Record PortParams := mkPortParams {
  Protocol : Z;
  PortNumber : Z          (* the field Port *)
}.

Record ProxyParams := mkProxyParams {
  ProxyType : string;     (* the field Type *)
  ProxyAddress : string;
  ProxyPort : Z;
  ProxyUsername : string;
  ProxyPassword : string
}.

Record WireGuardParams := mkWireGuardParams {
  wg_Port : PortParams;
  wg_EntryHosts : list ServerListItem;     (* EntryVpnServer.Hosts *)
  wg_Mtu : Z;
  wg_V2RayProxy : V2RayTransportType
}.

Record OpenVpnParams := mkOpenVpnParams {
  ovpn_EntryHosts : list ServerListItem;   (* EntryVpnServer.Hosts *)
  ovpn_Proxy : ProxyParams;
  ovpn_Port : PortParams;
  ovpn_Obfs4proxy : ObfsConfig;
  ovpn_V2RayProxy : V2RayTransportType
}.

Record ConnectionParams := mkConnectionParams {
  Metadata : ConnectMetadata;
  IPv6 : bool;
  IPv6Only : bool;
  VpnType : Z;
  ManualDNS : DnsSettings;
  FirewallOn : bool;
  FirewallOnDuringConnection : bool;
  WireGuardParameters : WireGuardParams;
  OpenVpnParameters : OpenVpnParams
}.

Definition set_wg_EntryHosts (hosts : list ServerListItem) (p : ConnectionParams)
  : ConnectionParams :=
  {| Metadata := Metadata p; IPv6 := IPv6 p; IPv6Only := IPv6Only p;
     VpnType := VpnType p; ManualDNS := ManualDNS p; FirewallOn := FirewallOn p;
     FirewallOnDuringConnection := FirewallOnDuringConnection p;
     WireGuardParameters :=
       {| wg_Port := wg_Port (WireGuardParameters p);
          wg_EntryHosts := hosts;
          wg_Mtu := wg_Mtu (WireGuardParameters p);
          wg_V2RayProxy := wg_V2RayProxy (WireGuardParameters p) |};
     OpenVpnParameters := OpenVpnParameters p |}.

Definition set_ovpn_EntryHosts (hosts : list ServerListItem) (p : ConnectionParams)
  : ConnectionParams :=
  {| Metadata := Metadata p; IPv6 := IPv6 p; IPv6Only := IPv6Only p;
     VpnType := VpnType p; ManualDNS := ManualDNS p; FirewallOn := FirewallOn p;
     FirewallOnDuringConnection := FirewallOnDuringConnection p;
     WireGuardParameters := WireGuardParameters p;
     OpenVpnParameters :=
       {| ovpn_EntryHosts := hosts;
          ovpn_Proxy := ovpn_Proxy (OpenVpnParameters p);
          ovpn_Port := ovpn_Port (OpenVpnParameters p);
          ovpn_Obfs4proxy := ovpn_Obfs4proxy (OpenVpnParameters p);
          ovpn_V2RayProxy := ovpn_V2RayProxy (OpenVpnParameters p) |} |}.

Definition IsMultiHop (p : ConnectionParams) : bool := false.

Definition CheckIsDefined (p : ConnectionParams) : option string :=
  if (VpnType p =? vpn_WireGuard)%Z then
    if (Z.of_nat (length (wg_EntryHosts (WireGuardParameters p))) <=? 0)%Z
    then Some "no hosts defined for WireGuard connection"
    else None
  else
    if (Z.of_nat (length (ovpn_EntryHosts (OpenVpnParameters p))) <=? 0)%Z
    then Some "no hosts defined for OpenVPN connection"
    else None.

(** The method [Port]. *)
Definition ConnectionParams_Port (p : ConnectionParams) : Z * bool :=
  if (VpnType p =? vpn_WireGuard)%Z then
    (PortNumber (wg_Port (WireGuardParameters p)),
     (0 <? Protocol (wg_Port (WireGuardParameters p)))%Z)
  else
    (PortNumber (ovpn_Port (OpenVpnParameters p)),
     (0 <? Protocol (ovpn_Port (OpenVpnParameters p)))%Z).

Definition V2Ray (p : ConnectionParams) : V2RayTransportType :=
  if (VpnType p =? vpn_WireGuard)%Z then wg_V2RayProxy (WireGuardParameters p)
  else ovpn_V2RayProxy (OpenVpnParameters p).

(** [hosts[i]] for an [int64] index; [None] is the panic of an index out
    of range. *)
Definition index_int64 (hosts : list ServerListItem) (i : Z) : option ServerListItem :=
  if (i <? 0)%Z then None else hosts !! Z.to_nat i.

(** The statements both branches of [NormalizeHosts] run on their list of
    entry hosts, for a list of more than one host: the first host, or the
    host at the random index when the random source gave one. *)
Definition random_host (first : ServerListItem) (hosts : list ServerListItem)
  : option ServerListItem :=
  match rand_Int (Z.of_nat (length hosts)) with
  | Some rnd => index_int64 hosts rnd
  | None => Some first
  end.

(** [NormalizeHosts] changes its receiver: the parameters it leaves are
    returned with the error.  [None] is a panic. *)
Definition NormalizeHosts (p : ConnectionParams)
  : option (ConnectionParams * option string) :=
  if (VpnType p =? vpn_OpenVPN)%Z then
    let entryHosts := ovpn_EntryHosts (OpenVpnParameters p) in
    match entryHosts with
    | first :: _ :: _ =>
        match random_host first entryHosts with
        | Some rndHost => Some (set_ovpn_EntryHosts [rndHost] p, None)
        | None => None
        end
    | _ => Some (p, None)
    end
  else if (VpnType p =? vpn_WireGuard)%Z then
    match wg_EntryHosts (WireGuardParameters p) with
    | first :: _ :: _ =>
        match random_host first (wg_EntryHosts (WireGuardParameters p)) with
        | Some rndHost => Some (set_wg_EntryHosts [rndHost] p, None)
        | None => None
        end
    | _ => Some (p, None)
    end
  else Some (p, Some ("unknown VPN type: " +:+ fmt_d (VpnType p))).

(** The entry hosts of the protocol the parameters select. *)
Definition entry_hosts (p : ConnectionParams) : list ServerListItem :=
  if (VpnType p =? vpn_WireGuard)%Z then wg_EntryHosts (WireGuardParameters p)
  else ovpn_EntryHosts (OpenVpnParameters p).

Definition set_entry_hosts (hosts : list ServerListItem) (p : ConnectionParams)
  : ConnectionParams :=
  if (VpnType p =? vpn_WireGuard)%Z then set_wg_EntryHosts hosts p
  else set_ovpn_EntryHosts hosts p.

(** What [rand.Int] promises for a positive bound. *)
Definition rand_in_range : Prop :=
  forall n k, (0 < n)%Z -> rand_Int n = Some k -> (0 <= k < n)%Z.

End ConnectionParams.

Definition three_hosts : list string := ["a.example"; "b.example"; "c.example"].

(** OpenVPN parameters with the given entry hosts; [vpn.OpenVPN] is 0 and
    [vpn.WireGuard] is 1. *)
Definition ovpn_params (hosts : list string) : @ConnectionParams string unit Z :=
  {| Metadata := {| ServerSelectionEntry := Default; ServerSelectionExit := Default;
                    AntiTracker := mkAntiTrackerMetadata false false "";
                    FastestGatewaysExcludeList := [] |};
     IPv6 := false; IPv6Only := false; VpnType := 0; ManualDNS := tunnel_dns;
     FirewallOn := true; FirewallOnDuringConnection := false;
     WireGuardParameters :=
       {| wg_Port := mkPortParams 0 2049; wg_EntryHosts := ["w.example"; "x.example"];
          wg_Mtu := 0; wg_V2RayProxy := 0%Z |};
     OpenVpnParameters :=
       {| ovpn_EntryHosts := hosts;
          ovpn_Proxy := mkProxyParams "" "" 0 "" "";
          ovpn_Port := mkPortParams 1 443;
          ovpn_Obfs4proxy := tt; ovpn_V2RayProxy := 0%Z |} |}.

Definition set_VpnType {A B C : Type} (t : Z) (p : @ConnectionParams A B C)
  : @ConnectionParams A B C :=
  {| Metadata := Metadata p; IPv6 := IPv6 p; IPv6Only := IPv6Only p;
     VpnType := t; ManualDNS := ManualDNS p; FirewallOn := FirewallOn p;
     FirewallOnDuringConnection := FirewallOnDuringConnection p;
     WireGuardParameters := WireGuardParameters p;
     OpenVpnParameters := OpenVpnParameters p |}.

(** A random source that answers 2, and one that fails. *)
Definition rand_two (n : Z) : option Z := if (2 <? n)%Z then Some 2%Z else Some 0%Z.
Definition rand_fails (n : Z) : option Z := None.

(** ** Hosts to ping (package service, implIsGoingToPingServers) *)

(** Of [types.ServersInfoResponse] and its servers, the fields the
    function reads. *)
Record OpenvpnServerInfo := mkOpenvpnServerInfo {
  IPAddresses : list string
}.

Record HostInfo := mkHostInfo {
  Host : string
}.

Record WireGuardServerInfo := mkWireGuardServerInfo {
  Hosts : list HostInfo
}.

Record ServersInfoResponse := mkServersInfoResponse {
  OpenvpnServers : list OpenvpnServerInfo;
  WireguardServers : list WireGuardServerInfo
}.

Definition implIsNeedCheckOvpnVer : bool := false.

Section PingServers.

(** [net.IP] with [net.ParseIP] (a nil IP is [None]), and
    [firewall.AddHostsToExceptions] with the error it returns. *)
Context {IP FirewallError : Type}.
Variable net_ParseIP : string -> option IP.
Variable firewall_AddHostsToExceptions : list IP -> option FirewallError.

(** The body of the loop over the OpenVPN servers. *)
Definition add_openvpn_host (hosts : list IP) (s : OpenvpnServerInfo) : list IP :=
  match IPAddresses s with
  | [] => hosts
  | address :: _ =>
      match net_ParseIP address with
      | Some ip => hosts ++ [ip]
      | None => hosts
      end
  end.

(** The body of the loop over the WireGuard servers. *)
Definition add_wireguard_host (hosts : list IP) (s : WireGuardServerInfo) : list IP :=
  match Hosts s with
  | [] => hosts
  | h :: _ =>
      match net_ParseIP (Host h) with
      | Some ip => hosts ++ [ip]
      | None => hosts
      end
  end.

(** The slice [hosts] when the two loops are done. *)
Definition hosts_to_ping (servers : ServersInfoResponse) : list IP :=
  let hosts := [] in
  let hosts := fold_left add_openvpn_host (OpenvpnServers servers) hosts in
  fold_left add_wireguard_host (WireguardServers servers) hosts.

Definition implIsGoingToPingServers (servers : ServersInfoResponse)
  : option FirewallError :=
  firewall_AddHostsToExceptions (hosts_to_ping servers).

(** The address a server is pinged at: its first one, when it parses. *)
Definition openvpn_ping_ip (s : OpenvpnServerInfo) : option IP :=
  head (IPAddresses s) ≫= net_ParseIP.

Definition wireguard_ping_ip (s : WireGuardServerInfo) : option IP :=
  head (Hosts s) ≫= (fun h => net_ParseIP (Host h)).

End PingServers.

(** A parser to run the loops with: an IP is kept as its text, and a text
    that holds a space is no address. *)
Definition parse_no_space (s : string) : option string :=
  if existsb (fun c => Ascii.eqb c " "%char) (list_ascii_of_string s) then None
  else Some s.

Definition some_servers : ServersInfoResponse :=
  {| OpenvpnServers :=
       [ mkOpenvpnServerInfo ["1.2.3.4"; "5.6.7.8"];
         mkOpenvpnServerInfo [];
         mkOpenvpnServerInfo ["not an address"; "9.9.9.9"] ];
     WireguardServers :=
       [ mkWireGuardServerInfo [mkHostInfo "8.8.4.4"; mkHostInfo "1.1.1.1"];
         mkWireGuardServerInfo [] ] |}.

(** ** Requests to the API (daemon/api/api.go) *)

Definition _geoLookupPath : string := "/location".
Definition GeoLookupApiAlias : string := "geo-lookup".

(** The request bodies the functions send. *)
Inductive RequestBody :=
| NoBody
| WGKeyUpdateRequest (PublicKey : string).

Section API.

(** Errors of the layers below ([requestRaw], [json.Unmarshal]), and the
    errors the functions make themselves. *)
Context {LowerError : Type}.

Inductive api_error :=
| Lower (err : LowerError)
| Unauthenticated
| DeserializeFailed (err : LowerError)
| RequestFailed (statusCode : Z) (rawResponse : string)
| GeoLookupIPVersionNotDefined.

(** [err.Error()] *)
Definition api_error_text (lower_text : LowerError -> string) (e : api_error) : string :=
  match e with
  | Lower err => lower_text err
  | Unauthenticated => "Unauthenticated"
  | DeserializeFailed err =>
      "failed to deserialize API response Session New API Success: " +:+ lower_text err
  | RequestFailed statusCode rawResponse =>
      "request Failed with Status coode " +:+ fmt_d statusCode +:+
      " and Response: " +:+ rawResponse
  | GeoLookupIPVersionNotDefined => "geolookup request failed: IP version not defined"
  end.

(** What is not among the files at hand: the method [requestRaw] (path,
    method, body, headers; it answers data, status code and error),
    [json.Unmarshal] into each response type, [config.GetAuthCredentials],
    the two values of [protocolTypes.RequiredIPProtocol], and the answer
    of the closure [singletonFunc] of [GeoLookup], which waits for a task
    of its own: the location (never a nil pointer), the raw response (a
    nil slice is [None]) and the error. *)
Context {ServerListResponse PinValidationResponse WGKeysUpdateResponse
         GeoLookupResponse : Type}.
Variable requestRaw :
  string -> string -> RequestBody -> list (string * string) ->
  string * Z * option LowerError.
Variable Unmarshal_ServerList : string -> LowerError + ServerListResponse.
Variable Unmarshal_PinValidation : string -> LowerError + PinValidationResponse.
Variable Unmarshal_WGKeysUpdate : string -> LowerError + WGKeysUpdateResponse.
Variable config_GetAuthCredentials : string.
Variables protocol_IPv4 protocol_IPv6 : Z.
Variable singletonFunc :
  unit -> GeoLookupResponse * option string * option api_error.

Definition GeoLookup
  : option GeoLookupResponse * option string * option api_error :=
  let '(location, rawData, retErr) := singletonFunc tt in
  match retErr with
  | Some retErr => (None, None, Some retErr)
  | None => (Some location, rawData, None)
  end.





(** [DoRequestByAlias]: the response data ([None] is a nil slice) and the
    error. *)
Definition DoRequestByAlias (apiAlias : string) (ipTypeRequired : Z)
  : option string * option api_error :=
  if String.eqb apiAlias GeoLookupApiAlias then
    if negb (ipTypeRequired =? protocol_IPv4)%Z && negb (ipTypeRequired =? protocol_IPv6)%Z
    then (None, Some GeoLookupIPVersionNotDefined)
    else
      let '(_, responseData, err) := GeoLookup in
      (responseData, err)
  else (None, None).


End API.

(** ** Proof automation *)

Lemma count_events_app p (t1 t2 : list Event) :
  count_events p (t1 ++ t2) = count_events p t1 + count_events p t2.
Proof. unfold count_events. by rewrite List.filter_app, length_app. Qed.

Lemma resolv_paths_ne : resolvFile <> resolvBackupFile.
Proof. discriminate. Qed.

Lemma resolv_paths_ne' : resolvBackupFile <> resolvFile.
Proof. discriminate. Qed.

#[local] Hint Resolve resolv_paths_ne resolv_paths_ne' : core.

Ltac unfold_model :=
  cbv beta iota zeta delta
    [rconf_implSetManual rconf_implInitialize rconf_implPause rconf_implResume
     rconf_implDeleteManual saveNewConfig createBackupIfNotExists
     rconf_createBackup rconf_restoreBackup rconf_isBackupExists
     rconf_stopDNSChangeMonitoring start_monitor monitor_reassert
     platform_GetSnapEnvs platform_IsSnapAbleManageResolvconf log_Error
     os_Stat os_Rename os_OpenFile File_WriteString File_Sync file_append
     next_fault emit bind ret set_files set_faults set_monitor add_event
     live backup upcoming same_state];
  cbn [env files faults monitor trace fst snd tail].

Ltac map_simpl :=
  repeat first
    [ rewrite lookup_insert_eq
    | rewrite lookup_delete_eq
    | rewrite (lookup_insert_ne _ resolvFile resolvBackupFile) by auto
    | rewrite (lookup_insert_ne _ resolvBackupFile resolvFile) by auto
    | rewrite (lookup_delete_ne _ resolvFile resolvBackupFile) by auto
    | rewrite (lookup_delete_ne _ resolvBackupFile resolvFile) by auto
    | match goal with
      | H : ?m !! ?k = _ |- context [?m !! ?k] => rewrite H
      end ].

Ltac destr_scrut :=
  match goal with
  | |- context [match ?x with _ => _ end] =>
      lazymatch x with
      | context [match _ with _ => _ end] => fail
      | _ => destruct x eqn:?
      end
  end.

Ltac crunch := repeat (unfold_model; map_simpl; try destr_scrut).

Ltac pair_inv :=
  repeat match goal with
    | H : (_, _) = (_, _) |- _ => injection H as ?; subst
    end.

Ltac finish :=
  rewrite <- ?app_assoc, ?count_events_app;
  unfold count_events;
  cbn [List.filter is_probe is_rename length String.append Nat.add app];
  repeat split; intros; try done; try congruence; try lia.

(** Views through the setters. *)
Ltac norm :=
  unfold live, backup, upcoming, set_monitor, set_files, set_faults, add_event in *;
  cbn [env files faults monitor trace] in *.

(** ** The scenarios of the specification, run *)

Example scenario_override :
  let w := snd (rconf_implSetManual tunnel_dns (world_original env_plain [])) in
  live w = Some (resolv_body "/usr/bin/ivpn-service" tunnel_dns) /\
  backup w = Some original_conf /\ monitor w = Some tunnel_dns.
Proof. vm_compute. repeat split. Qed.

Example scenario_external_change :
  let w1 := snd (rconf_implSetManual tunnel_dns (world_original env_plain [])) in
  let w2 := snd (external_write ("nameserver 1.1.1.1" +:+ nl) w1) in
  let w3 := snd (monitor_reassert w2) in
  live w2 = Some ("nameserver 1.1.1.1" +:+ nl) /\
  live w3 = live w1 /\ backup w3 = Some original_conf.
Proof. vm_compute. repeat split. Qed.

Example scenario_SetManual_twice :
  let w1 := snd (rconf_implSetManual tunnel_dns (world_original env_plain [])) in
  let w2 := snd (rconf_implSetManual second_dns w1) in
  backup w2 = Some original_conf /\
  live w2 = Some (resolv_body "/usr/bin/ivpn-service" second_dns).
Proof. vm_compute. repeat split. Qed.

Example scenario_restart :
  let '(err, w) := rconf_implInitialize (world_overridden env_plain []) in
  err = None /\ live w = Some original_conf /\ backup w = None.
Proof. vm_compute. repeat split. Qed.

(** Two addresses in the settings: the live file gets one nameserver
    line, for the first of them. *)
Example two_addresses_one_line :
  let '(r, w) := rconf_implSetManual two_servers (world_original env_plain []) in
  r = (two_servers, None) /\
  live w = Some (resolv_header "/usr/bin/ivpn-service" +:+ nl +:+
                 nameserver_line "10.0.0.1").
Proof. vm_compute. repeat split. Qed.

(** The disk is full when the override is written: the error comes back
    with the original already moved to the Backup and the live file
    empty. *)
Example failed_write_exit :
  let '(r, w) := rconf_implSetManual tunnel_dns
                   (world_original env_plain [None; None; disk_full]) in
  r = (DnsSettings_zero,
       Some (Errorf "failed to change DNS configuration: " ""
               (PathError "write" resolvFile ENOSPC))) /\
  live w = Some "" /\ backup w = Some original_conf.
Proof. vm_compute. repeat split. Qed.

(** [rconf_createBackup false] twice over the original file. *)
Example createBackup_second_call :
  let '(r1, w1) := rconf_createBackup false (world_original env_plain []) in
  let '(r2, w2) := rconf_createBackup false w1 in
  r1 = (true, None) /\ r2 = (false, Some source_missing) /\
  live w2 = None /\ backup w2 = Some original_conf /\
  count_events is_rename (trace w2) = 1.
Proof. vm_compute. repeat split. Qed.

(** [rconf_restoreBackup] twice where the rename is refused. *)
Example restoreBackup_refused_twice :
  let '(r1, w1) := rconf_restoreBackup (world_overridden env_snap [busy; busy]) in
  let '(r2, w2) := rconf_restoreBackup w1 in
  r1 = r2 /\
  r2 = Some (Errorf "failed to restore DNS configuration: " ""
               (LinkError "rename" resolvBackupFile resolvFile EBUSY)) /\
  live w2 = live (world_overridden env_snap [busy; busy]) /\
  backup w2 = Some original_conf.
Proof. vm_compute. repeat split. Qed.

(** ** What the two rotations and the writer do *)

(** [rconf_restoreBackup], case by case. *)
Lemma restoreBackup_spec w r w' :
  rconf_restoreBackup w = (r, w') ->
  env w' = env w /\ monitor w' = monitor w /\
  match backup w with
  | None => r = None /\ w' = add_event (EvStat resolvBackupFile) w
  | Some b =>
      faults w' = tail (faults w) /\
      trace w' = trace w ++ [EvStat resolvBackupFile;
                             EvRename resolvBackupFile resolvFile] /\
      match upcoming w with
      | None =>
          r = None /\
          files w' = <[resolvFile := b]> (delete resolvBackupFile (files w))
      | Some ft =>
          r = Some (Errorf "failed to restore DNS configuration: " ""
                      (LinkError "rename" resolvBackupFile resolvFile (fault_errno ft))) /\
          files w' = files w
      end
  end.
Proof.
  destruct w as [en fs fl m t]. crunch; intros H; pair_inv; unfold_model; finish.
Qed.

(** [rconf_createBackup false], case by case. *)
Lemma createBackup_spec w created err w' :
  rconf_createBackup false w = ((created, err), w') ->
  env w' = env w /\ monitor w' = monitor w /\
  match live w with
  | None =>
      created = false /\
      err = Some (Errorf
                    "failed to backup DNS configuration (file availability check failed): "
                    "" (PathError "stat" resolvFile ENOENT)) /\
      w' = add_event (EvStat resolvFile) w
  | Some c =>
      match backup w with
      | Some _ =>
          created = false /\ err = None /\
          w' = add_event (EvStat resolvBackupFile) (add_event (EvStat resolvFile) w)
      | None =>
          faults w' = tail (faults w) /\
          trace w' = trace w ++ [EvStat resolvFile; EvStat resolvBackupFile;
                                 EvRename resolvFile resolvBackupFile] /\
          match upcoming w with
          | None =>
              created = true /\ err = None /\
              files w' = <[resolvBackupFile := c]> (delete resolvFile (files w))
          | Some ft =>
              created = false /\
              err = Some (Errorf "failed to backup DNS configuration: " ""
                            (LinkError "rename" resolvFile resolvBackupFile
                               (fault_errno ft))) /\
              files w' = files w
          end
      end
  end.
Proof.
  destruct w as [en fs fl m t]. crunch; intros H; pair_inv; unfold_model; finish.
Qed.

(** [saveNewConfig]: it never takes the backup away, and when it returns
    nil the live file holds the body built from the settings. *)
Lemma saveNewConfig_spec dnsCfg w r w' :
  saveNewConfig dnsCfg w = (r, w') ->
  env w' = env w /\ monitor w' = monitor w /\
  count_events is_probe (trace w') = count_events is_probe (trace w) /\
  (forall b, backup w = Some b -> backup w' = Some b) /\
  (r = None -> live w' = Some (resolv_body (Args0 (env w)) dnsCfg)).
Proof.
  destruct w as [en fs fl m t].
  crunch; intros H; pair_inv; unfold_model; map_simpl; finish.
Qed.

(** ** [rconf_implSetManual], branch by branch *)

Ltac unfold_SetManual :=
  cbv beta iota zeta delta
    [rconf_implSetManual rconf_stopDNSChangeMonitoring start_monitor
     platform_GetSnapEnvs platform_IsSnapAbleManageResolvconf log_Error
     emit bind ret].

Lemma SetManual_empty s w :
  IsEmpty s = true ->
  rconf_implSetManual s w =
  (let (err, w') := rconf_implDeleteManual w in ((DnsSettings_zero, err), w')).
Proof.
  intros Hs. unfold_SetManual. rewrite Hs.
  unfold rconf_implDeleteManual, rconf_stopDNSChangeMonitoring, bind, ret.
  reflexivity.
Qed.

Lemma SetManual_backup_failed s w created err w1 :
  IsEmpty s = false ->
  createBackupIfNotExists (set_monitor None w) = ((created, Some err), w1) ->
  exists w',
    rconf_implSetManual s w = ((DnsSettings_zero, Some (backup_failure (env w1) err)), w') /\
    files w' = files w1 /\ env w' = env w1 /\ monitor w' = monitor w1 /\
    count_events is_probe (trace w1) < count_events is_probe (trace w').
Proof.
  intros Hs Hb. unfold_SetManual. rewrite Hs, Hb. unfold backup_failure.
  destruct w1 as [[a0 snap [[allowed msg] cerr]] fs fl m t].
  destruct snap, allowed, cerr;
    cbv beta iota zeta delta
      [add_event env files faults monitor trace SnapEnvs SnapAbleManageResolvconf
       andb negb];
    try destruct (Nat.ltb 0 (String.length msg));
    eexists; (split; [reflexivity|]); cbn [env files faults monitor trace]; finish.
Qed.

Lemma SetManual_backup_done s w created w1 :
  IsEmpty s = false ->
  createBackupIfNotExists (set_monitor None w) = ((created, None), w1) ->
  rconf_implSetManual s w =
  (let (err, w2) := saveNewConfig s w1 in
   match err with
   | Some err => ((DnsSettings_zero, Some err), w2)
   | None => ((s, None), set_monitor (Some s) w2)
   end).
Proof.
  intros Hs Hb. unfold_SetManual. rewrite Hs, Hb.
  destruct (saveNewConfig s w1) as [[err|] w2]; reflexivity.
Qed.

(** A [rconf_implSetManual] with settings that returns nil. *)
Lemma SetManual_ok s w r w' :
  IsEmpty s = false ->
  rconf_implSetManual s w = ((r, None), w') ->
  r = s /\ env w' = env w /\ monitor w' = Some s /\
  live w' = Some (resolv_body (Args0 (env w)) s) /\
  is_Some (live w) /\
  backup w' = match backup w with Some b => Some b | None => live w end /\
  count_events is_probe (trace w') = count_events is_probe (trace w).
Proof.
  intros Hs H.
  destruct (createBackupIfNotExists (set_monitor None w)) as [[cr [e|]] w1] eqn:Hb.
  - destruct (SetManual_backup_failed _ _ _ _ _ Hs Hb) as (w'' & Heq & _). congruence.
  - rewrite (SetManual_backup_done _ _ _ _ Hs Hb) in H.
    destruct (saveNewConfig s w1) as [[e|] w2] eqn:Hw; [discriminate|].
    injection H as <- <-.
    apply createBackup_spec in Hb. apply saveNewConfig_spec in Hw.
    destruct Hb as (He1 & Hm1 & Hb), Hw as (He2 & Hm2 & Hp2 & Hb2 & Hl2).
    norm. rewrite He2, He1 in *.
    destruct (files w !! resolvFile) as [c|] eqn:Hl; [|naive_solver].
    destruct (files w !! resolvBackupFile) as [b|] eqn:Hbk.
    + destruct Hb as (_ & _ & ->). norm.
      rewrite (Hb2 b Hbk), Hp2. finish. eauto.
    + destruct Hb as (Hf & Ht & Hb).
      destruct (match faults w with [] => None | f :: _ => f end); [naive_solver|].
      destruct Hb as (_ & _ & Hfs).
      rewrite (Hb2 c) by (rewrite Hfs; by map_simpl).
      rewrite Hp2, Ht. finish. eauto.
Qed.



(** [rconf_implDeleteManual] is [rconf_restoreBackup] once the monitor is
    told to stop. *)
Lemma DeleteManual_eq w :
  rconf_implDeleteManual w = rconf_restoreBackup (set_monitor None w).
Proof. reflexivity. Qed.

Lemma restore_ops_spec op w r w' :
  restores op = true ->
  run op w = (r, w') ->
  env w' = env w /\
  (files w' = files w \/
   r = None /\ exists b, backup w = Some b /\
     files w' = <[resolvFile := b]> (delete resolvBackupFile (files w))).
Proof.
  destruct w as [en fs fl m t].
  destruct op; try discriminate; intros _; unfold run;
    crunch; intros H; pair_inv; unfold_model; eauto 6.
Qed.

Lemma SetManual_env s w res w' :
  rconf_implSetManual s w = (res, w') -> env w' = env w.
Proof.
  intros H. destruct (IsEmpty s) eqn:Hs.
  - rewrite (SetManual_empty _ _ Hs) in H.
    destruct (rconf_implDeleteManual w) as [r w1] eqn:Hd. injection H as _ <-.
    by destruct (restore_ops_spec OpDeleteManual _ _ _ eq_refl Hd).
  - destruct (createBackupIfNotExists (set_monitor None w)) as [[cr [e|]] w1] eqn:Hb.
    + destruct (SetManual_backup_failed _ _ _ _ _ Hs Hb) as (w'' & Heq & _ & He & _).
      rewrite Heq in H. injection H as _ <-.
      apply createBackup_spec in Hb. destruct Hb as (He1 & _). norm. congruence.
    + rewrite (SetManual_backup_done _ _ _ _ Hs Hb) in H.
      destruct (saveNewConfig s w1) as [e w2] eqn:Hw.
      apply createBackup_spec in Hb. apply saveNewConfig_spec in Hw.
      destruct Hb as (He1 & _), Hw as (He2 & _).
      destruct e; injection H as _ <-; norm; congruence.
Qed.

(** The two invariants read the environment and the files only. *)
Lemma invariants_ext w w' :
  env w' = env w -> files w' = files w ->
  backup_marks_override w /\ backup_is_original w ->
  backup_marks_override w' /\ backup_is_original w'.
Proof.
  unfold backup_marks_override, backup_is_original, holds_override, live, backup.
  intros -> ->. done.
Qed.

Lemma invariants_restored w w' b :
  env w' = env w ->
  backup w = Some b ->
  files w' = <[resolvFile := b]> (delete resolvBackupFile (files w)) ->
  backup_is_original w ->
  backup_marks_override w' /\ backup_is_original w'.
Proof.
  unfold backup_marks_override, backup_is_original, holds_override, live, backup.
  intros -> Hb -> Ho. map_simpl. split.
  - split.
    + intros [? ?]. done.
    + intros (c & [= <-] & Hc). by destruct (Ho _ Hb).
  - done.
Qed.

Lemma resolv_body_not_empty args0 s : resolv_body args0 s <> "".
Proof. discriminate. Qed.


Lemma createBackup_probes w res w' :
  rconf_createBackup false w = (res, w') ->
  count_events is_probe (trace w') = count_events is_probe (trace w).
Proof.
  destruct res as [created err]. intros H. apply createBackup_spec in H.
  destruct H as (_ & _ & H).
  destruct (live w); [destruct (backup w)|].
  - destruct H as (_ & _ & ->). norm. finish.
  - destruct H as (_ & -> & _). finish.
  - destruct H as (_ & _ & ->). norm. finish.
Qed.

Lemma restoreBackup_probes w r w' :
  rconf_restoreBackup w = (r, w') ->
  count_events is_probe (trace w') = count_events is_probe (trace w).
Proof.
  intros H. apply restoreBackup_spec in H. destruct H as (_ & _ & H).
  destruct (backup w).
  - destruct H as (_ & -> & _). finish.
  - destruct H as (_ & ->). norm. finish.
Qed.

(** Package platform is asked only by a [rconf_implSetManual] whose
    backup step failed. *)
Lemma SetManual_probes s w res w' :
  rconf_implSetManual s w = (res, w') ->
  count_events is_probe (trace w') <> count_events is_probe (trace w) ->
  IsEmpty s = false /\
  exists created cause w1,
    createBackupIfNotExists (set_monitor None w) = ((created, Some cause), w1).
Proof.
  intros H Hp. destruct (IsEmpty s) eqn:Hs.
  - rewrite (SetManual_empty _ _ Hs), DeleteManual_eq in H.
    destruct (rconf_restoreBackup (set_monitor None w)) as [r w1] eqn:Hr.
    injection H as _ <-. apply restoreBackup_probes in Hr. norm. done.
  - split; [done|].
    destruct (createBackupIfNotExists (set_monitor None w)) as [[cr [e|]] w1] eqn:Hb;
      [eauto|].
    rewrite (SetManual_backup_done _ _ _ _ Hs Hb) in H.
    destruct (saveNewConfig s w1) as [e w2] eqn:Hw.
    apply createBackup_probes in Hb. apply saveNewConfig_spec in Hw.
    destruct Hw as (_ & _ & Hp2 & _). norm.
    destruct e; injection H as _ <-; norm; congruence.
Qed.


(** * Properties of the operations *)

(** ** C1: the body written by SetManual *)

(** C1, as stated, fails: with two addresses in the settings a successful
    [rconf_implSetManual] does not leave one nameserver line per address
    at the live path.  The writer prints [dnsCfg.Ip()] once, whatever the
    number of addresses. *)
Lemma C1_second_address_counterexample :
  ~ (forall s w r w',
        IsEmpty s = false ->
        rconf_implSetManual s w = ((r, None), w') ->
        live w' = Some (spec_body (Args0 (env w)) s)).
Proof.
  intros H.
  pose (w' := snd (rconf_implSetManual two_servers (world_original env_plain []))).
  assert (rconf_implSetManual two_servers (world_original env_plain []) =
          ((two_servers, None), w')) as Hrun by (vm_compute; reflexivity).
  specialize (H two_servers _ _ _ eq_refl Hrun).
  vm_compute in H. discriminate H.
Qed.

(** C1, amended.  For settings [s] that are not empty, after
    [rconf_implSetManual s] returned nil the live file is the header
    comment, an empty line and exactly one nameserver line, the one of
    [s.Ip()]; for settings with a single address this is one line per
    address; and a second successful call with the same settings leaves
    the very same content. *)
Theorem C1_SetManual_writes_one_nameserver s w r w' :
  IsEmpty s = false ->
  rconf_implSetManual s w = ((r, None), w') ->
  live w' = Some (resolv_header (Args0 (env w)) +:+ nl +:+
                  nameserver_line (Ip_String s)) /\
  (forall a, Addresses s = [a] ->
     live w' = Some (spec_body (Args0 (env w)) s)) /\
  (forall r2 w2, rconf_implSetManual s w' = ((r2, None), w2) -> live w2 = live w').
Proof.
  intros Hs H. destruct (SetManual_ok _ _ _ _ Hs H) as (_ & He & _ & Hl & _).
  split; [exact Hl|]. split.
  - intros a Ha. rewrite Hl. unfold resolv_body, spec_body, Ip_String.
    rewrite Ha. cbn [map String.concat]. reflexivity.
  - intros r2 w2 H2. destruct (SetManual_ok _ _ _ _ Hs H2) as (_ & _ & _ & Hl2 & _).
    rewrite Hl2, Hl, He. reflexivity.
Qed.

(** The theorem at work: the original file, then SetManual(10.0.0.1). *)
Lemma C1_SetManual_writes_one_nameserver_witness :
  live (snd (rconf_implSetManual tunnel_dns (world_original env_plain []))) =
  Some (resolv_header "/usr/bin/ivpn-service" +:+ nl +:+ nameserver_line "10.0.0.1").
Proof.
  refine (proj1 (C1_SetManual_writes_one_nameserver tunnel_dns
                   (world_original env_plain []) tunnel_dns _ _ _)).
  - reflexivity.
  - vm_compute. reflexivity.
Defined.

(** ** C2: the round trip *)



(** ** C3: the invariant of the data model *)

(** C3, as stated, fails: [rconf_implSetManual] has moved the original to
    the Backup when the write of the override runs out of disk space; it
    returns the error and leaves the Backup in place beside an empty live
    file. *)
Lemma C3_failed_write_counterexample :
  ~ (forall op w,
        backup_marks_override w -> backup_marks_override (snd (run op w))).
Proof.
  intros H.
  assert (backup_marks_override (world_original env_plain [None; None; disk_full]))
    as Hentry.
  { split.
    - intros [? Hb]. vm_compute in Hb. discriminate Hb.
    - intros (c & Hc & s & ->). vm_compute in Hc. discriminate Hc. }
  apply (H (OpSetManual tunnel_dns)) in Hentry as [Hexit _].
  destruct Hexit as (c & Hc & s & ->).
  - vm_compute. eauto.
  - apply (resolv_body_not_empty (Args0 env_plain) s).
    vm_compute in Hc. injection Hc as Hc. cbv. exact (eq_sym Hc).
Qed.

(** C3, amended.  In a world where the Backup exists iff the live path
    holds override content, and where the Backup is not itself override
    content, both facts hold again after [rconf_implInitialize],
    [rconf_implDeleteManual], [rconf_implPause] and [rconf_implResume],
    whatever they return, and after a [rconf_implSetManual] that returns
    nil or that leaves the files as they were. *)
Theorem C3_invariant_preserved op w r w' :
  run op w = (r, w') ->
  backup_marks_override w ->
  backup_is_original w ->
  (forall s, op = OpSetManual s -> r = None \/ files w' = files w) ->
  backup_marks_override w' /\ backup_is_original w'.
Proof.
  intros Hrun Hm Ho Hok.
  destruct (restores op) eqn:Hop.
  - destruct (restore_ops_spec _ _ _ _ Hop Hrun) as (He & [Hf | (_ & b & Hb & Hf)]).
    + by apply (invariants_ext w).
    + by apply (invariants_restored w w' b).
  - destruct op as [|s| | |]; try discriminate.
    + unfold run, bind, ret in Hrun.
      destruct (rconf_implSetManual s w) as [[r0 e] w0] eqn:Hs.
      injection Hrun as Hr Hw. subst r w'. cbn [snd] in *.
      pose proof (SetManual_env _ _ _ _ Hs) as He.
      destruct (IsEmpty s) eqn:Hes.
      * rewrite (SetManual_empty _ _ Hes) in Hs.
        destruct (rconf_implDeleteManual w) as [r1 w1] eqn:Hd.
        injection Hs as _ He1 Hw1. subst e w0.
        destruct (restore_ops_spec OpDeleteManual _ _ _ eq_refl Hd)
          as (_ & [Hf | (_ & b & Hb & Hf)]).
        -- by apply (invariants_ext w).
        -- by apply (invariants_restored w w1 b).
      * destruct (Hok s eq_refl) as [-> | Hf]; [|by apply (invariants_ext w)].
        destruct (SetManual_ok _ _ _ _ Hes Hs) as (_ & _ & _ & Hl & [c Hc] & Hb & _).
        unfold backup_marks_override, backup_is_original, holds_override in *.
        rewrite He, Hb, Hl, Hc. split.
        -- split; intros _.
           ++ eexists. split; [reflexivity|]. by exists s.
           ++ destruct (backup w); eauto.
        -- intros b Hb'. destruct (backup w) as [b0|] eqn:Hbk.
           ++ injection Hb' as <-. by apply Ho.
           ++ injection Hb' as <-. intros Hov.
              assert (is_Some (@None string)) as [? ?]; [|done].
              apply Hm. exists c. by rewrite Hc.
    + injection Hrun as <- <-. done.
Qed.

(** The theorem at work: SetManual(10.0.0.1) over the original file. *)
Lemma C3_invariant_preserved_witness :
  backup_marks_override
    (snd (run (OpSetManual tunnel_dns) (world_original env_plain []))) /\
  backup_is_original
    (snd (run (OpSetManual tunnel_dns) (world_original env_plain []))).
Proof.
  refine (C3_invariant_preserved (OpSetManual tunnel_dns)
            (world_original env_plain []) None _ _ _ _ _).
  - vm_compute. reflexivity.
  - split.
    + intros [? Hb]. vm_compute in Hb. discriminate Hb.
    + intros (c & Hc & s & ->). vm_compute in Hc. discriminate Hc.
  - intros b Hb. vm_compute in Hb. discriminate Hb.
  - intros s _. left. reflexivity.
Defined.

(** ** C4: createBackup twice *)

(** C4, as stated, fails: the first [rconf_createBackup false] moves the
    live file away, so the second one finds nothing at the live path and
    returns the error of the availability check, not [(false, nil)]. *)
Lemma C4_second_call_counterexample :
  ~ (forall w c,
        live w = Some c ->
        let '((_, _), w1) := rconf_createBackup false w in
        let '((created2, err2), w2) := rconf_createBackup false w1 in
        count_events is_rename (trace w2) = count_events is_rename (trace w) + 1 /\
        (created2, err2) = (false, None) /\
        backup w2 = backup w1).
Proof.
  intros H.
  assert (live (world_original env_plain []) = Some original_conf) as Hl
    by (vm_compute; reflexivity).
  apply H in Hl. revert Hl. vm_compute. intros (_ & Hl & _). discriminate Hl.
Qed.

(** C4, amended.  The live file exists and a first
    [rconf_createBackup false] returns without error.  Then a second call
    in succession renames nothing, returns [created = false] and leaves
    every file, the Backup among them, as the first call left it.  When
    the first call made the Backup (one rename in all, the Backup holding
    the former live content) the second returns the error of the
    availability check; when the Backup had been there already (no rename
    at all) it returns [(false, nil)]. *)
Theorem C4_createBackup_twice w c created w1 :
  live w = Some c ->
  rconf_createBackup false w = ((created, None), w1) ->
  exists err2 w2,
    rconf_createBackup false w1 = ((false, err2), w2) /\
    files w2 = files w1 /\
    count_events is_rename (trace w2) =
      count_events is_rename (trace w) + (if created then 1 else 0) /\
    err2 = (if created then Some source_missing else None) /\
    (created = true -> backup w = None /\ backup w1 = Some c) /\
    (created = false -> is_Some (backup w) /\ files w1 = files w).
Proof.
  intros Hl H1.
  destruct (rconf_createBackup false w1) as [[cr2 e2] w2] eqn:H2.
  apply createBackup_spec in H1, H2.
  destruct H1 as (_ & _ & H1), H2 as (_ & _ & H2). rewrite Hl in H1.
  destruct (backup w) as [b|] eqn:Hb.
  - destruct H1 as (-> & _ & ->). norm. rewrite Hl, Hb in H2.
    destruct H2 as (-> & -> & ->). norm.
    eexists _, _. split; [reflexivity|]. cbn [trace files]. finish.
  - destruct H1 as (_ & Ht & H1).
    destruct (upcoming w); [naive_solver|]. destruct H1 as (-> & _ & Hf).
    norm. rewrite Hf in H2. revert H2. map_simpl. intros (-> & -> & ->). norm.
    eexists _, _. split; [reflexivity|]. cbn [trace files]. rewrite Ht, Hf.
    map_simpl. finish.
Qed.

(** The theorem at work: the original file and no Backup. *)
Lemma C4_createBackup_twice_witness :
  exists err2 w2,
    rconf_createBackup false
      (snd (rconf_createBackup false (world_original env_plain []))) =
      ((false, err2), w2) /\
    files w2 = files (snd (rconf_createBackup false (world_original env_plain []))) /\
    count_events is_rename (trace w2) =
      count_events is_rename (trace (world_original env_plain [])) + 1 /\
    err2 = Some source_missing /\
    (true = true ->
     backup (world_original env_plain []) = None /\
     backup (snd (rconf_createBackup false (world_original env_plain []))) =
       Some original_conf) /\
    (true = false ->
     is_Some (backup (world_original env_plain [])) /\
     files (snd (rconf_createBackup false (world_original env_plain []))) =
       files (world_original env_plain [])).
Proof.
  refine (C4_createBackup_twice (world_original env_plain []) original_conf true
            (snd (rconf_createBackup false (world_original env_plain []))) _ _).
  - reflexivity.
  - vm_compute. reflexivity.
Defined.

(** ** C5: restoreBackup twice *)

(** C5, as stated, fails: where the rename of the Backup is refused, as
    it is over a bind-mounted resolv.conf, every call of
    [rconf_restoreBackup] returns the error, the second one too. *)
Lemma C5_failing_rename_counterexample :
  ~ (forall w,
        let '(_, w1) := rconf_restoreBackup w in
        let '(err2, w2) := rconf_restoreBackup w1 in
        same_state w1 w2 /\ err2 = None).
Proof.
  intros H.
  assert (fst (rconf_restoreBackup
                 (snd (rconf_restoreBackup (world_overridden env_snap [busy; busy]))))
          <> None) as Herr by (vm_compute; discriminate).
  specialize (H (world_overridden env_snap [busy; busy])).
  destruct (rconf_restoreBackup (world_overridden env_snap [busy; busy])) as [r1 w1].
  cbn [snd] in Herr.
  destruct (rconf_restoreBackup w1) as [r2 w2].
  destruct H as [_ H]. exact (Herr H).
Qed.

(** C5, amended.  When there is no Backup, [rconf_restoreBackup] returns
    nil and changes nothing.  And after any call that returned nil there
    is no Backup, and a second call in a row returns nil and changes
    nothing. *)
Theorem C5_restoreBackup_idempotent w :
  (backup w = None ->
   exists w1, rconf_restoreBackup w = (None, w1) /\ same_state w w1) /\
  (forall w1,
      rconf_restoreBackup w = (None, w1) ->
      backup w1 = None /\
      exists w2, rconf_restoreBackup w1 = (None, w2) /\ same_state w1 w2).
Proof.
  assert (forall v, backup v = None ->
            exists v1, rconf_restoreBackup v = (None, v1) /\ same_state v v1) as Hnone.
  { intros v Hb. destruct (rconf_restoreBackup v) as [r v1] eqn:Hr.
    apply restoreBackup_spec in Hr. destruct Hr as (_ & _ & Hr). rewrite Hb in Hr.
    destruct Hr as (-> & ->). eexists. split; [reflexivity|]. by unfold same_state. }
  split; [apply Hnone|].
  intros w1 H1. apply restoreBackup_spec in H1. destruct H1 as (_ & _ & H1).
  assert (backup w1 = None) as Hb1.
  { destruct (backup w) as [b|] eqn:Hb.
    - destruct H1 as (_ & _ & H1). destruct (upcoming w); [naive_solver|].
      destruct H1 as (_ & Hf). unfold backup. rewrite Hf. by map_simpl.
    - destruct H1 as (_ & ->). done. }
  split; [done|]. by apply Hnone.
Qed.

(** The theorem at work: an override in place. *)
Lemma C5_restoreBackup_idempotent_witness :
  backup (snd (rconf_restoreBackup (world_overridden env_plain []))) = None /\
  exists w2,
    rconf_restoreBackup (snd (rconf_restoreBackup (world_overridden env_plain []))) =
      (None, w2) /\
    same_state (snd (rconf_restoreBackup (world_overridden env_plain []))) w2.
Proof.
  refine (proj2 (C5_restoreBackup_idempotent (world_overridden env_plain []))
            (snd (rconf_restoreBackup (world_overridden env_plain []))) _).
  vm_compute. reflexivity.
Defined.

(** ** C6: Initialize *)

(** C6.  Without a Backup [rconf_implInitialize] returns nil and leaves
    the files alone.  With a Backup of content [b]: when the rename goes
    through it returns nil, the live path holds [b] and the Backup is
    gone; when the rename fails it returns an error that wraps the error
    of the rename, and the files are as before. *)
Theorem C6_Initialize w :
  let '(r, w') := rconf_implInitialize w in
  match backup w with
  | None => r = None /\ files w' = files w
  | Some b =>
      match upcoming w with
      | None =>
          r = None /\ live w' = Some b /\ backup w' = None /\
          files w' = <[resolvFile := b]> (delete resolvBackupFile (files w))
      | Some ft =>
          let cause := LinkError "rename" resolvBackupFile resolvFile (fault_errno ft) in
          r = Some (Errorf "failed to restore DNS to default: " ""
                      (Errorf "failed to restore DNS configuration: " "" cause)) /\
          (forall e, r = Some e -> wraps e cause /\ root_cause e = cause) /\
          files w' = files w
      end
  end.
Proof.
  destruct w as [en fs fl m t]. crunch; cbn [faults] in *; simplify_eq; finish.
  all: simplify_eq; repeat constructor.
Qed.

(** ** C7: empty settings *)

(** C7.  [rconf_implSetManual] with empty settings returns the zero
    [DnsSettings] with the error of [rconf_implDeleteManual], and leaves
    the world that [rconf_implDeleteManual] leaves. *)
Theorem C7_SetManual_empty_is_DeleteManual s w :
  IsEmpty s = true ->
  rconf_implSetManual s w =
  ((DnsSettings_zero, fst (rconf_implDeleteManual w)), snd (rconf_implDeleteManual w)).
Proof.
  intros Hs. rewrite (SetManual_empty _ _ Hs).
  by destruct (rconf_implDeleteManual w).
Qed.

(** The theorem at work: settings without an address. *)
Lemma C7_SetManual_empty_is_DeleteManual_witness :
  rconf_implSetManual no_dns (world_overridden env_plain []) =
  ((DnsSettings_zero, fst (rconf_implDeleteManual (world_overridden env_plain []))),
   snd (rconf_implDeleteManual (world_overridden env_plain []))).
Proof.
  refine (C7_SetManual_empty_is_DeleteManual no_dns (world_overridden env_plain []) _).
  reflexivity.
Defined.

(** ** C8: Pause *)


(** ** C9: the diagnostic of a failed backup *)

(** C9.  When the backup step of [rconf_implSetManual] fails with
    [cause], the process runs under snap and package platform answers
    that resolv.conf may not be managed, with a message for the user,
    the error returned is [cause] wrapped with that message after it.
    Package platform is not asked when [rconf_implSetManual] returns nil,
    and whenever it is asked the backup step has failed. *)
Theorem C9_backup_failure_diagnostic s w :
  (forall created cause w1 msg cerr,
      IsEmpty s = false ->
      createBackupIfNotExists (set_monitor None w) = ((created, Some cause), w1) ->
      SnapEnvs (env w) = true ->
      SnapAbleManageResolvconf (env w) = (false, msg, cerr) ->
      msg <> "" ->
      exists w',
        rconf_implSetManual s w =
          ((DnsSettings_zero, Some (Errorf "" (nl +:+ nl +:+ msg) cause)), w') /\
        Error (Errorf "" (nl +:+ nl +:+ msg) cause) = Error cause +:+ nl +:+ nl +:+ msg /\
        count_events is_probe (trace w) < count_events is_probe (trace w')) /\
  (forall r w',
      rconf_implSetManual s w = ((r, None), w') ->
      count_events is_probe (trace w') = count_events is_probe (trace w)) /\
  (forall res w',
      rconf_implSetManual s w = (res, w') ->
      count_events is_probe (trace w') <> count_events is_probe (trace w) ->
      exists created cause w1,
        createBackupIfNotExists (set_monitor None w) = ((created, Some cause), w1) /\
        snd res = Some (backup_failure (env w) cause)).
Proof.
  split; [|split].
  - intros created cause w1 msg cerr Hs Hb Hsnap Hchk Hmsg.
    destruct (SetManual_backup_failed _ _ _ _ _ Hs Hb) as (w' & Heq & _ & _ & _ & Hp).
    pose proof Hb as Hb'. apply createBackup_probes in Hb'.
    apply createBackup_spec in Hb. destruct Hb as (He & _). norm.
    exists w'. rewrite Heq, He. unfold backup_failure. rewrite Hsnap, Hchk.
    destruct msg as [|a msg]; [done|]. cbn [String.length Nat.ltb Nat.leb andb negb].
    split; [reflexivity|]. split; [reflexivity|]. lia.
  - intros r w' H.
    destruct (decide (count_events is_probe (trace w') = count_events is_probe (trace w)))
      as [|Hne]; [done|].
    destruct (SetManual_probes _ _ _ _ H Hne) as (Hs & cr & cause & w1 & Hb).
    destruct (SetManual_backup_failed _ _ _ _ _ Hs Hb) as (w'' & Heq & _). congruence.
  - intros res w' H Hne.
    destruct (SetManual_probes _ _ _ _ H Hne) as (Hs & cr & cause & w1 & Hb).
    exists cr, cause, w1. split; [done|].
    destruct (SetManual_backup_failed _ _ _ _ _ Hs Hb) as (w'' & Heq & _).
    rewrite Heq in H. injection H as <- _.
    apply createBackup_spec in Hb. destruct Hb as (He & _). norm. by rewrite He.
Qed.

(** The theorem at work: under snap, with nothing at the live path. *)
Lemma C9_backup_failure_diagnostic_witness :
  exists w',
    rconf_implSetManual tunnel_dns (world_bare env_snap) =
      ((DnsSettings_zero,
        Some (Errorf "" (nl +:+ nl +:+ "Run: sudo snap connect ivpn:network-control")
                source_missing)), w') /\
    Error (Errorf "" (nl +:+ nl +:+ "Run: sudo snap connect ivpn:network-control")
             source_missing) =
      Error source_missing +:+ nl +:+ nl +:+ "Run: sudo snap connect ivpn:network-control" /\
    count_events is_probe (trace (world_bare env_snap)) < count_events is_probe (trace w').
Proof.
  refine (proj1 (C9_backup_failure_diagnostic tunnel_dns (world_bare env_snap))
            false source_missing
            (snd (createBackupIfNotExists (set_monitor None (world_bare env_snap))))
            "Run: sudo snap connect ivpn:network-control" None _ _ _ _ _).
  - reflexivity.
  - vm_compute. reflexivity.
  - reflexivity.
  - reflexivity.
  - discriminate.
Defined.

(** ** C10: the settings returned with an error *)

(** C10.  Whenever [rconf_implSetManual] returns an error, the settings
    it returns are the zero [DnsSettings]. *)
Theorem C10_SetManual_error_returns_zero s w r err w' :
  rconf_implSetManual s w = ((r, Some err), w') ->
  r = DnsSettings_zero.
Proof.
  intros H. destruct (IsEmpty s) eqn:Hs.
  - rewrite (SetManual_empty _ _ Hs) in H.
    destruct (rconf_implDeleteManual w). by injection H as <- _.
  - destruct (createBackupIfNotExists (set_monitor None w)) as [[cr [e|]] w1] eqn:Hb.
    + destruct (SetManual_backup_failed _ _ _ _ _ Hs Hb) as (w'' & Heq & _).
      rewrite Heq in H. by injection H as <- _.
    + rewrite (SetManual_backup_done _ _ _ _ Hs Hb) in H.
      destruct (saveNewConfig s w1) as [[e|] w2]; [|discriminate].
      by injection H as <- _.
Qed.

(** The theorem at work: the disk is full when the override is written. *)
Lemma C10_SetManual_error_returns_zero_witness :
  fst (fst (rconf_implSetManual two_servers
              (world_original env_plain [None; None; disk_full]))) =
  DnsSettings_zero.
Proof.
  refine (C10_SetManual_error_returns_zero two_servers
            (world_original env_plain [None; None; disk_full]) _
            (Errorf "failed to change DNS configuration: " ""
               (PathError "write" resolvFile ENOSPC))
            (snd (rconf_implSetManual two_servers
                    (world_original env_plain [None; None; disk_full]))) _).
  vm_compute. reflexivity.
Defined.

(** * Further properties *)

(** ** The resolv.conf back end *)

Ltac frame_simpl :=
  repeat match goal with
    | Hp : other_path ?p |- context [<[resolvFile := _]> _ !! ?p] =>
        rewrite (lookup_insert_ne _ resolvFile p) by (destruct Hp; congruence)
    | Hp : other_path ?p |- context [<[resolvBackupFile := _]> _ !! ?p] =>
        rewrite (lookup_insert_ne _ resolvBackupFile p) by (destruct Hp; congruence)
    | Hp : other_path ?p |- context [delete resolvFile _ !! ?p] =>
        rewrite (lookup_delete_ne _ resolvFile p) by (destruct Hp; congruence)
    | Hp : other_path ?p |- context [delete resolvBackupFile _ !! ?p] =>
        rewrite (lookup_delete_ne _ resolvBackupFile p) by (destruct Hp; congruence)
    end.

Ltac finish' :=
  rewrite <- ?app_assoc, ?count_events_app;
  unfold count_events;
  cbn [List.filter is_probe is_rename is_content_call length String.append Nat.add app];
  repeat split; intros; frame_simpl; try done; try congruence; try lia.

(** [rconf_createBackup], with either value of the flag. *)
Lemma createBackup_effects ov w created err w' :
  rconf_createBackup ov w = ((created, err), w') ->
  env w' = env w /\ monitor w' = monitor w /\
  (forall p, other_path p -> files w' !! p = files w !! p) /\
  count_events is_content_call (trace w') = count_events is_content_call (trace w) /\
  count_events is_probe (trace w') = count_events is_probe (trace w) /\
  (created = true -> err = None) /\
  (err <> None -> files w' = files w) /\
  match live w with
  | None => err = Some source_missing /\
            count_events is_rename (trace w') = count_events is_rename (trace w)
  | Some c =>
      if negb ov && bool_decide (is_Some (backup w))
      then created = false /\ err = None /\ files w' = files w /\
           count_events is_rename (trace w') = count_events is_rename (trace w)
      else count_events is_rename (trace w') = count_events is_rename (trace w) + 1 /\
           match upcoming w with
           | None => created = true /\
                     files w' = <[resolvBackupFile := c]> (delete resolvFile (files w))
           | Some ft => created = false /\
                        err = Some (Errorf "failed to backup DNS configuration: " ""
                                      (LinkError "rename" resolvFile resolvBackupFile
                                         (fault_errno ft)))
           end
  end.
Proof.
  destruct w as [en fs fl m t], ov; unfold source_missing.
  all: crunch; intros H; pair_inv; unfold_model; cbn [negb andb]; try rewrite Heqo0;
    try (rewrite bool_decide_true by eauto); try (rewrite bool_decide_false by (intros [? ?]; done));
    cbn [negb andb]; finish'.
Qed.

Lemma restoreBackup_effects w r w' :
  rconf_restoreBackup w = (r, w') ->
  (forall p, other_path p -> files w' !! p = files w !! p) /\
  count_events is_content_call (trace w') = count_events is_content_call (trace w) /\
  (forall e, r = Some e ->
     files w' = files w /\ is_Some (backup w) /\
     exists errno, root_cause e = LinkError "rename" resolvBackupFile resolvFile errno).
Proof.
  destruct w as [en fs fl m t].
  crunch; intros H; pair_inv; unfold_model; finish'; simplify_eq; cbn [root_cause]; eauto.
Qed.

(** [saveNewConfig]: the files it leaves alone, the renames it makes, and
    what it does without a Backup. *)
Lemma saveNewConfig_effects dnsCfg w r w' :
  saveNewConfig dnsCfg w = (r, w') ->
  (forall p, other_path p -> files w' !! p = files w !! p) /\
  count_events is_rename (trace w') =
    count_events is_rename (trace w) +
    match live w, backup w with Some _, None => 1 | _, _ => 0 end /\
  (faults w = [] -> r = None).
Proof.
  destruct w as [en fs fl m t].
  crunch; intros H; pair_inv; unfold_model; map_simpl; finish'.
Qed.

Lemma SetManual_destruct s w :
  IsEmpty s = false ->
  exists created berr w1,
    createBackupIfNotExists (set_monitor None w) = ((created, berr), w1) /\
    match berr with
    | Some cause =>
        exists w',
          rconf_implSetManual s w =
            ((DnsSettings_zero, Some (backup_failure (env w1) cause)), w') /\
          files w' = files w1 /\ monitor w' = monitor w1 /\
          count_events is_rename (trace w') = count_events is_rename (trace w1) /\
          count_events is_content_call (trace w') =
            count_events is_content_call (trace w1)
    | None =>
        rconf_implSetManual s w =
          (let (err, w2) := saveNewConfig s w1 in
           match err with
           | Some err => ((DnsSettings_zero, Some err), w2)
           | None => ((s, None), set_monitor (Some s) w2)
           end)
    end.
Proof.
  intros Hs.
  destruct (createBackupIfNotExists (set_monitor None w)) as [[cr [e|]] w1] eqn:Hb;
    exists cr; eexists; exists w1; (split; [reflexivity|]).
  - unfold_SetManual. rewrite Hs, Hb. unfold backup_failure.
    destruct w1 as [[a0 snap [[allowed msg] cerr]] fs fl m t].
    destruct snap, allowed, cerr;
      cbv beta iota zeta delta
        [add_event env files faults monitor trace SnapEnvs SnapAbleManageResolvconf
         andb negb];
      try destruct (Nat.ltb 0 (String.length msg));
      eexists; (split; [reflexivity|]); cbn [env files faults monitor trace]; finish'.
  - by apply (SetManual_backup_done _ _ cr).
Qed.

Ltac decide_backup H :=
  match type of H with
  | context [bool_decide ?P] =>
      let Hd := fresh "Hd" in
      destruct (bool_decide P) eqn:Hd;
      [ apply bool_decide_eq_true in Hd; try (destruct Hd as [? ?]; done)
      | apply bool_decide_eq_false in Hd; try (destruct Hd; by eauto) ]
  end.

(** A call of [rconf_implSetManual] with settings, whatever it returns. *)
Lemma SetManual_effects s w r e w' :
  IsEmpty s = false ->
  rconf_implSetManual s w = ((r, e), w') ->
  (forall p, other_path p -> files w' !! p = files w !! p) /\
  monitor w' = match e with None => Some s | Some _ => None end /\
  count_events is_rename (trace w') =
    count_events is_rename (trace w) +
    match live w, backup w with Some _, None => 1 | _, _ => 0 end /\
  (forall b, backup w = Some b -> backup w' = Some b) /\
  (live w = None \/ (backup w = None /\ upcoming w <> None) ->
   e <> None /\ files w' = files w /\
   count_events is_content_call (trace w') = count_events is_content_call (trace w)).
Proof.
  intros Hs H.
  destruct (SetManual_destruct s w Hs) as (cr & berr & w1 & Hb & Hrest).
  unfold createBackupIfNotExists in Hb. apply createBackup_effects in Hb.
  destruct Hb as (He1 & Hm1 & Hfr1 & Hc1 & _ & _ & Hsame & Hb).
  cbn [negb andb] in Hb. norm.
  destruct berr as [cause|].
  - destruct Hrest as (w'' & Heq & Hf & Hm & Hr & Hc).
    rewrite Heq in H. injection H as _ <- <-.
    assert (files w1 = files w) as Hsame' by (by apply Hsame). clear Hsame. rename Hsame' into Hsame. rewrite Hf, Hm, Hm1, Hr, Hc, Hc1, Hsame.
    destruct (files w !! resolvFile) as [c|] eqn:Hl.
    + destruct (files w !! resolvBackupFile) as [b|] eqn:Hbk.
      * decide_backup Hb. by destruct Hb as (_ & ? & _).
      * decide_backup Hb. destruct Hb as (-> & _).
        repeat split; try done.
    + destruct Hb as (_ & Hr1). repeat split; try done. lia.
  - rewrite Hrest in H. destruct (saveNewConfig s w1) as [serr w2] eqn:Hw.
    pose proof Hw as Hw'. apply saveNewConfig_spec in Hw. apply saveNewConfig_effects in Hw'.
    destruct Hw as (_ & Hm2 & _ & Hb2 & _), Hw' as (Hfr2 & Hr2 & _).
    assert (files w' = files w2 /\ trace w' = trace w2 /\
            monitor w' = match e with None => Some s | Some _ => None end) as (Hf & Ht & Hm).
    { destruct serr; injection H as _ <- <-; norm; rewrite ?Hm2, ?Hm1; auto. }
    rewrite Hf, Ht, Hr2. unfold live, backup in *.
    destruct (files w !! resolvFile) as [c|] eqn:Hl; [|by destruct Hb].
    destruct (files w !! resolvBackupFile) as [b|] eqn:Hbk.
    + decide_backup Hb. destruct Hb as (_ & _ & Hfs & Hr1).
      rewrite Hfs in *. rewrite Hl, Hbk, Hr1.
      split; [intros p Hp; by rewrite Hfr2|].
      split; [done|]. split; [lia|].
      split; [intros b0 [= <-]; by apply Hb2|].
      intros [?|[? ?]]; done.
    + decide_backup Hb. destruct Hb as (Hr1 & Hb).
      destruct (match faults w with [] => None | f :: _ => f end) eqn:Hup;
        [by destruct Hb as (_ & ?)|].
      destruct Hb as (_ & Hfs). rewrite Hfs in *. revert Hr2 Hb2. map_simpl. intros Hr2 Hb2.
      split.
      { intros p Hp. rewrite Hfr2 by done. destruct Hp.
        by rewrite lookup_insert_ne, lookup_delete_ne. }
      split; [done|]. split; [lia|]. split; [done|].
      intros [?|[_ Hu]]; [done | by destruct Hu].
Qed.

Lemma restore_ops_effects op w r w' :
  restores op = true ->
  run op w = (r, w') ->
  (forall p, other_path p -> files w' !! p = files w !! p) /\
  count_events is_content_call (trace w') = count_events is_content_call (trace w) /\
  monitor w' = (if stops_monitor op w then None else monitor w) /\
  (forall e, r = Some e ->
     files w' = files w /\ is_Some (backup w) /\
     exists errno, root_cause e = LinkError "rename" resolvBackupFile resolvFile errno) /\
  (r = None -> backup w' = None).
Proof.
  destruct w as [en fs fl m t].
  destruct op; try discriminate; intros _; unfold run, stops_monitor;
    crunch; intros H; pair_inv; unfold_model; map_simpl;
    try (rewrite bool_decide_true by eauto);
    try (rewrite bool_decide_false by (intros [? ?]; done));
    finish'; simplify_eq; cbn [root_cause]; eauto.
Qed.







(** X4.  With settings, [rconf_implSetManual] never replaces a Backup
    that exists, whatever it returns; and when there was none and it
    returns nil, the Backup holds what the live file held. *)
Theorem SetManual_backup_content s w r e w' :
  IsEmpty s = false ->
  rconf_implSetManual s w = ((r, e), w') ->
  (forall b, backup w = Some b -> backup w' = Some b) /\
  (backup w = None -> e = None -> backup w' = live w /\ is_Some (live w)).
Proof.
  intros Hs H. split.
  - by apply (SetManual_effects _ _ _ _ _ Hs H).
  - intros Hb ->. destruct (SetManual_ok _ _ _ _ Hs H) as (_ & _ & _ & _ & Hl & Hbk & _).
    rewrite Hb in Hbk. done.
Qed.

Lemma SetManual_backup_content_witness :
  (forall b,
      backup (world_overridden env_plain [None; disk_full]) = Some b ->
      backup (snd (rconf_implSetManual second_dns
                     (world_overridden env_plain [None; disk_full]))) = Some b) /\
  (backup (world_overridden env_plain [None; disk_full]) = None ->
   snd (fst (rconf_implSetManual second_dns
               (world_overridden env_plain [None; disk_full]))) = None ->
   backup (snd (rconf_implSetManual second_dns
                  (world_overridden env_plain [None; disk_full]))) =
     live (world_overridden env_plain [None; disk_full]) /\
   is_Some (live (world_overridden env_plain [None; disk_full]))).
Proof.
  refine (SetManual_backup_content second_dns
            (world_overridden env_plain [None; disk_full])
            (fst (fst (rconf_implSetManual second_dns
                         (world_overridden env_plain [None; disk_full]))))
            _ _ _ _).
  - reflexivity.
  - by destruct (rconf_implSetManual second_dns
                   (world_overridden env_plain [None; disk_full])) as [[? ?] ?].
Defined.


(** X6.  With settings, [rconf_implSetManual] calls rename once when the
    live file exists and no Backup does, and never otherwise. *)
Theorem SetManual_rename_count s w r e w' :
  IsEmpty s = false ->
  rconf_implSetManual s w = ((r, e), w') ->
  count_events is_rename (trace w') =
  count_events is_rename (trace w) +
  match live w, backup w with Some _, None => 1 | _, _ => 0 end.
Proof. intros Hs H. by apply (SetManual_effects _ _ _ _ _ Hs H). Qed.

Lemma SetManual_rename_count_witness :
  count_events is_rename
    (trace (snd (rconf_implSetManual tunnel_dns (world_original env_plain [])))) =
  count_events is_rename (trace (world_original env_plain [])) +
  match live (world_original env_plain []), backup (world_original env_plain []) with
  | Some _, None => 1
  | _, _ => 0
  end.
Proof.
  refine (SetManual_rename_count tunnel_dns (world_original env_plain [])
            (fst (fst (rconf_implSetManual tunnel_dns (world_original env_plain []))))
            (snd (fst (rconf_implSetManual tunnel_dns (world_original env_plain []))))
            _ _ _).
  - reflexivity.
  - by destruct (rconf_implSetManual tunnel_dns (world_original env_plain []))
      as [[? ?] ?].
Defined.

(** X7.  [rconf_createBackup]: with nothing at the live path it fails
    and changes nothing, whatever the flag; with the flag set and the
    rename going through, the Backup becomes the live content, replacing
    a Backup that was there, and the live path is left empty. *)
Theorem createBackup_overwrite w :
  (live w = None ->
   forall ov, fst (rconf_createBackup ov w) = (false, Some source_missing) /\
              files (snd (rconf_createBackup ov w)) = files w) /\
  (forall c, live w = Some c -> upcoming w = None ->
     fst (rconf_createBackup true w) = (true, None) /\
     backup (snd (rconf_createBackup true w)) = Some c /\
     live (snd (rconf_createBackup true w)) = None).
Proof.
  split.
  - intros Hl ov. destruct (rconf_createBackup ov w) as [[cr err] w'] eqn:H.
    apply createBackup_effects in H.
    destruct H as (_ & _ & _ & _ & _ & Hcr & Hsame & H). rewrite Hl in H.
    destruct H as (-> & _). cbn [fst snd]. split; [|by apply Hsame].
    destruct cr; [|done]. by specialize (Hcr eq_refl).
  - intros c Hl Hup. destruct (rconf_createBackup true w) as [[cr err] w'] eqn:H.
    apply createBackup_effects in H.
    destruct H as (_ & _ & _ & _ & _ & Hcr & _ & H). rewrite Hl, Hup in H.
    cbn [negb andb] in H. destruct H as (_ & -> & Hf). cbn [fst snd].
    rewrite (Hcr eq_refl). unfold backup, live. rewrite Hf. by map_simpl.
Qed.

Lemma createBackup_overwrite_witness :
  fst (rconf_createBackup true (world_overridden env_plain [])) = (true, None) /\
  backup (snd (rconf_createBackup true (world_overridden env_plain []))) =
    Some (resolv_body (Args0 env_plain) tunnel_dns) /\
  live (snd (rconf_createBackup true (world_overridden env_plain []))) = None.
Proof.
  refine (proj2 (createBackup_overwrite (world_overridden env_plain []))
            (resolv_body (Args0 env_plain) tunnel_dns) _ _).
  - vm_compute. reflexivity.
  - reflexivity.
Defined.

(** X8.  After one of [rconf_implInitialize], [rconf_implDeleteManual]
    and [rconf_implPause] returned nil there is no Backup, and any of
    the three then returns nil and leaves the files as they are. *)
Theorem restore_then_restore op1 op2 w w1 :
  restores op1 = true -> restores op2 = true ->
  run op1 w = (None, w1) ->
  backup w1 = None /\
  fst (run op2 w1) = None /\ files (snd (run op2 w1)) = files w1.
Proof.
  intros H1 H2 Hrun.
  destruct (restore_ops_effects _ _ _ _ H1 Hrun) as (_ & _ & _ & _ & Hb).
  specialize (Hb eq_refl). split; [done|].
  destruct (run op2 w1) as [r2 w2] eqn:Hrun2. cbn [fst snd].
  destruct (restore_ops_effects _ _ _ _ H2 Hrun2) as (_ & _ & _ & He & _).
  destruct (restore_ops_spec _ _ _ _ H2 Hrun2) as (_ & [Hf | (_ & b & Hb' & _)]);
    [|congruence].
  split; [|done]. destruct r2 as [e|]; [|done].
  destruct (He e eq_refl) as (_ & [? ?] & _). congruence.
Qed.

Lemma restore_then_restore_witness :
  backup (snd (run OpPause (world_overridden env_plain []))) = None /\
  fst (run OpInitialize (snd (run OpPause (world_overridden env_plain [])))) = None /\
  files (snd (run OpInitialize (snd (run OpPause (world_overridden env_plain []))))) =
    files (snd (run OpPause (world_overridden env_plain []))).
Proof.
  refine (restore_then_restore OpPause OpInitialize (world_overridden env_plain [])
            (snd (run OpPause (world_overridden env_plain []))) _ _ _).
  - reflexivity.
  - reflexivity.
  - vm_compute. reflexivity.
Defined.



(** ** Connection parameters *)

Example fmt_d_examples : fmt_d 7 = "7" /\ fmt_d 0 = "0" /\ fmt_d (-12) = "-12".
Proof. vm_compute. repeat split. Qed.

Section ConnectionParamsFacts.

Context {ServerListItem ObfsConfig V2RayTransportType : Type}.
Variables vpn_OpenVPN vpn_WireGuard : Z.
Variable rand_Int : Z -> option Z.
Hypothesis vpn_types_differ : vpn_OpenVPN <> vpn_WireGuard.

Local Abbreviation Params := (@ConnectionParams ServerListItem ObfsConfig V2RayTransportType).

Lemma set_entry_hosts_same (p : Params) :
  set_entry_hosts vpn_WireGuard (entry_hosts vpn_WireGuard p) p = p.
Proof.
  unfold set_entry_hosts, entry_hosts.
  destruct p as [? ? ? ? ? ? ? [? ? ? ?] [? ? ? ? ?]]; cbn.
  by destruct (_ =? _)%Z.
Qed.

Lemma random_host_elem (first : ServerListItem) hosts :
  rand_in_range rand_Int ->
  first ∈ hosts ->
  exists h, random_host rand_Int first hosts = Some h /\ h ∈ hosts.
Proof.
  intros Hrand Hfirst. unfold random_host.
  destruct (rand_Int _) as [k|] eqn:Hk; [|eauto].
  apply Hrand in Hk; [|destruct hosts; [by apply elem_of_nil in Hfirst | cbn; lia]].
  unfold index_int64.
  destruct (Z.ltb_spec k 0); [lia|].
  destruct (lookup_lt_is_Some_2 hosts (Z.to_nat k)) as [h Hh]; [lia|].
  exists h. split; [done|]. by eapply list_elem_of_lookup_2.
Qed.

(** [NormalizeHosts] on parameters of one of the two known types. *)
Lemma NormalizeHosts_known (p : Params) :
  rand_in_range rand_Int ->
  VpnType p = vpn_OpenVPN \/ VpnType p = vpn_WireGuard ->
  exists hosts,
    NormalizeHosts vpn_OpenVPN vpn_WireGuard rand_Int p =
      Some (set_entry_hosts vpn_WireGuard hosts p, None) /\
    length hosts = min 1 (length (entry_hosts vpn_WireGuard p)) /\
    (forall h, h ∈ hosts -> h ∈ entry_hosts vpn_WireGuard p) /\
    (length (entry_hosts vpn_WireGuard p) <= 1 -> hosts = entry_hosts vpn_WireGuard p).
Proof.
  intros Hrand Hty. unfold NormalizeHosts.
  destruct Hty as [Hty | Hty]; rewrite Hty.
  - rewrite Z.eqb_refl.
    assert (entry_hosts vpn_WireGuard p = ovpn_EntryHosts (OpenVpnParameters p))
      as Hent.
    { unfold entry_hosts. rewrite Hty. by destruct (Z.eqb_spec vpn_OpenVPN vpn_WireGuard). }
    assert (forall hs, set_entry_hosts vpn_WireGuard hs p = set_ovpn_EntryHosts hs p)
      as Hset.
    { intros hs. unfold set_entry_hosts. rewrite Hty.
      by destruct (Z.eqb_spec vpn_OpenVPN vpn_WireGuard). }
    destruct (ovpn_EntryHosts (OpenVpnParameters p)) as [|h1 [|h2 l]] eqn:Hh.
    + exists (entry_hosts vpn_WireGuard p). rewrite set_entry_hosts_same, Hent, ?Hh. done.
    + exists (entry_hosts vpn_WireGuard p). rewrite set_entry_hosts_same, Hent, ?Hh. done.
    + destruct (random_host_elem h1 (h1 :: h2 :: l) Hrand) as (h & -> & Hin);
        [by left|].
      exists [h]. rewrite Hset, Hent, ?Hh. repeat split; try done.
      * intros h' ->%list_elem_of_singleton. done.
      * cbn. lia.
  - destruct (Z.eqb_spec vpn_WireGuard vpn_OpenVPN); [done|].
    assert (entry_hosts vpn_WireGuard p = wg_EntryHosts (WireGuardParameters p))
      as Hent by (unfold entry_hosts; by rewrite Hty, Z.eqb_refl).
    assert (forall hs, set_entry_hosts vpn_WireGuard hs p = set_wg_EntryHosts hs p)
      as Hset by (intros hs; unfold set_entry_hosts; by rewrite Hty, Z.eqb_refl).
    rewrite Z.eqb_refl.
    destruct (wg_EntryHosts (WireGuardParameters p)) as [|h1 [|h2 l]] eqn:Hh.
    + exists (entry_hosts vpn_WireGuard p). rewrite set_entry_hosts_same, Hent, ?Hh. done.
    + exists (entry_hosts vpn_WireGuard p). rewrite set_entry_hosts_same, Hent, ?Hh. done.
    + destruct (random_host_elem h1 (h1 :: h2 :: l) Hrand) as (h & -> & Hin);
        [by left|].
      exists [h]. rewrite Hset, Hent, ?Hh. repeat split; try done.
      * intros h' ->%list_elem_of_singleton. done.
      * cbn. lia.
Qed.

End ConnectionParamsFacts.

(** X10.  [Equal] on [AntiTrackerMetadata] is true exactly for equal
    values. *)
Theorem AntiTrackerMetadata_Equal_iff a b :
  AntiTrackerMetadata_Equal a b = true <-> a = b.
Proof.
  destruct a as [e1 h1 n1], b as [e2 h2 n2]. unfold AntiTrackerMetadata_Equal. cbn.
  rewrite !andb_true_iff, !Bool.eqb_true_iff, String.eqb_eq. split.
  - intros [[-> ->] ->]. done.
  - intros [= -> -> ->]. done.
Qed.

(** X11.  For parameters of type OpenVPN or WireGuard, and a random
    source that keeps within its bound, [NormalizeHosts] returns nil
    without a panic; the entry hosts of the chosen protocol become at
    most one host, taken from the hosts that were there; nothing else in
    the parameters changes, and nothing at all when there was at most
    one host. *)
Theorem NormalizeHosts_picks_one_host
    {ServerListItem ObfsConfig V2RayTransportType : Type}
    (vpn_OpenVPN vpn_WireGuard : Z) (rand_Int : Z -> option Z)
    (p : @ConnectionParams ServerListItem ObfsConfig V2RayTransportType) :
  vpn_OpenVPN <> vpn_WireGuard ->
  rand_in_range rand_Int ->
  VpnType p = vpn_OpenVPN \/ VpnType p = vpn_WireGuard ->
  exists hosts,
    NormalizeHosts vpn_OpenVPN vpn_WireGuard rand_Int p =
      Some (set_entry_hosts vpn_WireGuard hosts p, None) /\
    length hosts = min 1 (length (entry_hosts vpn_WireGuard p)) /\
    (forall h, h ∈ hosts -> h ∈ entry_hosts vpn_WireGuard p) /\
    (length (entry_hosts vpn_WireGuard p) <= 1 ->
     set_entry_hosts vpn_WireGuard hosts p = p).
Proof.
  intros Hne Hrand Hty.
  destruct (NormalizeHosts_known vpn_OpenVPN vpn_WireGuard rand_Int Hne p Hrand Hty)
    as (hosts & Heq & Hlen & Hin & Hsame).
  exists hosts. repeat split; try done.
  intros Hle. rewrite (Hsame Hle). apply set_entry_hosts_same.
Qed.

Lemma rand_two_in_range : rand_in_range rand_two.
Proof.
  intros n k Hn. unfold rand_two. destruct (Z.ltb_spec 2 n); intros [= <-]; lia.
Qed.

Lemma NormalizeHosts_picks_one_host_witness :
  exists hosts,
    NormalizeHosts 0 1 rand_two (ovpn_params three_hosts) =
      Some (set_entry_hosts 1 hosts (ovpn_params three_hosts), None) /\
    length hosts = min 1 (length (entry_hosts 1 (ovpn_params three_hosts))) /\
    (forall h, h ∈ hosts -> h ∈ entry_hosts 1 (ovpn_params three_hosts)) /\
    (length (entry_hosts 1 (ovpn_params three_hosts)) <= 1 ->
     set_entry_hosts 1 hosts (ovpn_params three_hosts) = ovpn_params three_hosts).
Proof.
  refine (NormalizeHosts_picks_one_host 0 1 rand_two (ovpn_params three_hosts) _ _ _).
  - discriminate.
  - exact rand_two_in_range.
  - left. reflexivity.
Defined.

Lemma NormalizeHosts_error_inv
    {ServerListItem ObfsConfig V2RayTransportType : Type}
    (vpn_OpenVPN vpn_WireGuard : Z) (rand_Int : Z -> option Z)
    (p p' : @ConnectionParams ServerListItem ObfsConfig V2RayTransportType) r :
  NormalizeHosts vpn_OpenVPN vpn_WireGuard rand_Int p = Some (p', r) ->
  match r with
  | Some e =>
      VpnType p <> vpn_OpenVPN /\ VpnType p <> vpn_WireGuard /\ p' = p /\
      e = "unknown VPN type: " +:+ fmt_d (VpnType p)
  | None => VpnType p = vpn_OpenVPN \/ VpnType p = vpn_WireGuard
  end.
Proof.
  unfold NormalizeHosts.
  destruct (Z.eqb_spec (VpnType p) vpn_OpenVPN) as [Ho|Ho].
  - destruct (ovpn_EntryHosts _) as [|h1 [|h2 l]];
      try destruct (random_host _ _ _); intros [= <- <-]; eauto.
  - destruct (Z.eqb_spec (VpnType p) vpn_WireGuard) as [Hw|Hw].
    + destruct (wg_EntryHosts _) as [|h1 [|h2 l]];
        try destruct (random_host _ _ _); intros [= <- <-]; eauto.
    + intros [= <- <-]. done.
Qed.

Lemma entry_hosts_set
    {ServerListItem ObfsConfig V2RayTransportType : Type} (vpn_WireGuard : Z) hosts
    (p : @ConnectionParams ServerListItem ObfsConfig V2RayTransportType) :
  VpnType (set_entry_hosts vpn_WireGuard hosts p) = VpnType p /\
  entry_hosts vpn_WireGuard (set_entry_hosts vpn_WireGuard hosts p) = hosts.
Proof.
  unfold entry_hosts, set_entry_hosts.
  destruct (Z.eqb_spec (VpnType p) vpn_WireGuard) as [Hw|Hw]; cbn;
    (split; [done|]).
  - by rewrite Hw, Z.eqb_refl.
  - by destruct (Z.eqb_spec (VpnType p) vpn_WireGuard).
Qed.

(** X12.  [NormalizeHosts] a second time returns nil and changes
    nothing, whatever the random source does then. *)
Theorem NormalizeHosts_twice
    {ServerListItem ObfsConfig V2RayTransportType : Type}
    (vpn_OpenVPN vpn_WireGuard : Z) (rand_Int rand_Int' : Z -> option Z)
    (p p' : @ConnectionParams ServerListItem ObfsConfig V2RayTransportType) :
  vpn_OpenVPN <> vpn_WireGuard ->
  rand_in_range rand_Int ->
  NormalizeHosts vpn_OpenVPN vpn_WireGuard rand_Int p = Some (p', None) ->
  NormalizeHosts vpn_OpenVPN vpn_WireGuard rand_Int' p' = Some (p', None).
Proof.
  intros Hne Hrand H1.
  pose proof (NormalizeHosts_error_inv _ _ _ _ _ _ H1) as Hty.
  destruct (NormalizeHosts_known vpn_OpenVPN vpn_WireGuard rand_Int Hne p Hrand Hty)
    as (hosts & Heq & Hlen & _). rewrite Heq in H1. injection H1 as <-.
  destruct (entry_hosts_set vpn_WireGuard hosts p) as (Hty' & Hent).
  assert (length hosts <= 1) as Hle by lia.
  unfold NormalizeHosts. rewrite Hty'.
  unfold entry_hosts in Hent. rewrite Hty' in Hent.
  destruct Hty as [Hty | Hty]; rewrite Hty in *.
  - rewrite Z.eqb_refl. destruct (Z.eqb_spec vpn_OpenVPN vpn_WireGuard); [done|].
    rewrite Hent. by destruct hosts as [|? [|? ?]]; cbn in Hle; try lia.
  - destruct (Z.eqb_spec vpn_WireGuard vpn_OpenVPN); [done|].
    rewrite Z.eqb_refl in *. rewrite Hent.
    by destruct hosts as [|? [|? ?]]; cbn in Hle; try lia.
Qed.

Lemma NormalizeHosts_twice_witness :
  NormalizeHosts 0 1 rand_fails
    (set_ovpn_EntryHosts ["c.example"] (ovpn_params three_hosts)) =
  Some (set_ovpn_EntryHosts ["c.example"] (ovpn_params three_hosts), None).
Proof.
  refine (NormalizeHosts_twice 0 1 rand_two rand_fails (ovpn_params three_hosts)
            (set_ovpn_EntryHosts ["c.example"] (ovpn_params three_hosts)) _ _ _).
  - discriminate.
  - exact rand_two_in_range.
  - reflexivity.
Defined.

(** X13.  [CheckIsDefined] gives the same answer after a
    [NormalizeHosts] that returned nil as before it. *)
Theorem NormalizeHosts_keeps_CheckIsDefined
    {ServerListItem ObfsConfig V2RayTransportType : Type}
    (vpn_OpenVPN vpn_WireGuard : Z) (rand_Int : Z -> option Z)
    (p p' : @ConnectionParams ServerListItem ObfsConfig V2RayTransportType) :
  vpn_OpenVPN <> vpn_WireGuard ->
  rand_in_range rand_Int ->
  NormalizeHosts vpn_OpenVPN vpn_WireGuard rand_Int p = Some (p', None) ->
  CheckIsDefined vpn_WireGuard p' = CheckIsDefined vpn_WireGuard p.
Proof.
  intros Hne Hrand H1.
  pose proof (NormalizeHosts_error_inv _ _ _ _ _ _ H1) as Hty.
  destruct (NormalizeHosts_known vpn_OpenVPN vpn_WireGuard rand_Int Hne p Hrand Hty)
    as (hosts & Heq & Hlen & _). rewrite Heq in H1. injection H1 as <-.
  destruct (entry_hosts_set vpn_WireGuard hosts p) as (Hty' & Hent).
  unfold CheckIsDefined. rewrite Hty'.
  unfold entry_hosts in Hent, Hlen. rewrite Hty' in Hent.
  destruct (VpnType p =? vpn_WireGuard)%Z; rewrite Hent;
    match goal with
    | |- context [length (?f ?x)] => destruct (f x)
    end; destruct hosts; cbn in Hlen |- *; try done; lia.
Qed.

Lemma NormalizeHosts_keeps_CheckIsDefined_witness :
  CheckIsDefined 1 (set_ovpn_EntryHosts ["c.example"] (ovpn_params three_hosts)) =
  CheckIsDefined 1 (ovpn_params three_hosts).
Proof.
  refine (NormalizeHosts_keeps_CheckIsDefined 0 1 rand_two (ovpn_params three_hosts)
            (set_ovpn_EntryHosts ["c.example"] (ovpn_params three_hosts)) _ _ _).
  - discriminate.
  - exact rand_two_in_range.
  - reflexivity.
Defined.

(** X14.  [NormalizeHosts] returns an error exactly for a type that is
    neither OpenVPN nor WireGuard; the parameters are then unchanged and
    the message carries the number of the type. *)
Theorem NormalizeHosts_error_iff
    {ServerListItem ObfsConfig V2RayTransportType : Type}
    (vpn_OpenVPN vpn_WireGuard : Z) (rand_Int : Z -> option Z)
    (p : @ConnectionParams ServerListItem ObfsConfig V2RayTransportType) :
  (VpnType p <> vpn_OpenVPN /\ VpnType p <> vpn_WireGuard ->
   NormalizeHosts vpn_OpenVPN vpn_WireGuard rand_Int p =
     Some (p, Some ("unknown VPN type: " +:+ fmt_d (VpnType p)))) /\
  (forall p' e,
      NormalizeHosts vpn_OpenVPN vpn_WireGuard rand_Int p = Some (p', Some e) ->
      VpnType p <> vpn_OpenVPN /\ VpnType p <> vpn_WireGuard /\ p' = p /\
      e = "unknown VPN type: " +:+ fmt_d (VpnType p)).
Proof.
  split.
  - intros [Ho Hw]. unfold NormalizeHosts.
    destruct (Z.eqb_spec (VpnType p) vpn_OpenVPN); [done|].
    by destruct (Z.eqb_spec (VpnType p) vpn_WireGuard).
  - intros p' e H. exact (NormalizeHosts_error_inv _ _ _ _ _ _ H).
Qed.

Lemma NormalizeHosts_error_iff_witness :
  NormalizeHosts 0 1 rand_two (set_VpnType 7 (ovpn_params three_hosts)) =
  Some (set_VpnType 7 (ovpn_params three_hosts), Some "unknown VPN type: 7").
Proof.
  refine (proj1 (NormalizeHosts_error_iff 0 1 rand_two
                   (set_VpnType 7 (ovpn_params three_hosts))) _).
  split; discriminate.
Defined.

(** ** Hosts to ping *)

Lemma fold_left_snoc_omap {A B : Type} (f : A -> option B) (step : list B -> A -> list B)
    (l : list A) :
  (forall acc a, step acc a = acc ++ option_list (f a)) ->
  forall acc, fold_left step l acc = acc ++ omap f l.
Proof.
  intros Hstep. induction l as [|a l IH]; intros acc; cbn.
  - by rewrite app_nil_r.
  - rewrite IH, Hstep. destruct (f a); cbn; by rewrite <- ?app_assoc, ?app_nil_r.
Qed.

Lemma omap_length_le {A B : Type} (f : A -> option B) (l : list A) :
  length (omap f l) <= length l.
Proof. induction l as [|a l IH]; cbn; [lia|]. destruct (f a); cbn; lia. Qed.

Lemma hosts_to_ping_eq {IP : Type} (net_ParseIP : string -> option IP) servers :
  hosts_to_ping net_ParseIP servers =
  omap (openvpn_ping_ip net_ParseIP) (OpenvpnServers servers) ++
  omap (wireguard_ping_ip net_ParseIP) (WireguardServers servers).
Proof.
  unfold hosts_to_ping.
  rewrite (fold_left_snoc_omap (openvpn_ping_ip net_ParseIP)).
  - rewrite (fold_left_snoc_omap (wireguard_ping_ip net_ParseIP)); [done|].
    intros acc s. unfold add_wireguard_host, wireguard_ping_ip.
    destruct (Hosts s) as [|h ?]; cbn; [by rewrite app_nil_r|].
    destruct (net_ParseIP (Host h)); cbn; by rewrite ?app_nil_r.
  - intros acc s. unfold add_openvpn_host, openvpn_ping_ip.
    destruct (IPAddresses s) as [|a ?]; cbn; [by rewrite app_nil_r|].
    destruct (net_ParseIP a); cbn; by rewrite ?app_nil_r.
Qed.

(** X15.  The hosts handed to the firewall are the parsed first
    addresses of the OpenVPN servers, in order, then those of the
    WireGuard servers: a server without an address or with a first
    address that does not parse adds nothing, and no later address of a
    server is used. *)
Theorem ping_hosts_first_addresses {IP : Type} (net_ParseIP : string -> option IP)
    servers :
  hosts_to_ping net_ParseIP servers =
    omap (openvpn_ping_ip net_ParseIP) (OpenvpnServers servers) ++
    omap (wireguard_ping_ip net_ParseIP) (WireguardServers servers) /\
  forall ip,
    ip ∈ hosts_to_ping net_ParseIP servers <->
    (exists s address rest,
        s ∈ OpenvpnServers servers /\ IPAddresses s = address :: rest /\
        net_ParseIP address = Some ip) \/
    (exists s h rest,
        s ∈ WireguardServers servers /\ Hosts s = h :: rest /\
        net_ParseIP (Host h) = Some ip).
Proof.
  split; [apply hosts_to_ping_eq|].
  intros ip. rewrite hosts_to_ping_eq, elem_of_app, !list_elem_of_omap.
  unfold openvpn_ping_ip, wireguard_ping_ip.
  split; (intros [(s & Hs & H) | (s & Hs & H)]; [left | right]).
  - destruct (IPAddresses s) as [|a rest] eqn:Ha; [done|]. exists s, a, rest. done.
  - destruct (Hosts s) as [|h rest] eqn:Hh; [done|]. exists s, h, rest. done.
  - destruct H as (rest & Hrest & Ha & Hp). exists s. split; [done|].
    by rewrite Ha.
  - destruct H as (rest & Hrest & Ha & Hp). exists s. split; [done|].
    by rewrite Ha.
Qed.

(** X16.  The hosts never outnumber the servers: the slice stays within
    the capacity it was made with. *)
Theorem ping_hosts_within_capacity {IP : Type} (net_ParseIP : string -> option IP)
    servers :
  length (hosts_to_ping net_ParseIP servers) <=
  length (OpenvpnServers servers) + length (WireguardServers servers).
Proof.
  rewrite hosts_to_ping_eq, length_app.
  pose proof (omap_length_le (openvpn_ping_ip net_ParseIP) (OpenvpnServers servers)).
  pose proof (omap_length_le (wireguard_ping_ip net_ParseIP) (WireguardServers servers)).
  lia.
Qed.

Example some_servers_pinged :
  hosts_to_ping parse_no_space some_servers = ["1.2.3.4"; "8.8.4.4"].
Proof. reflexivity. Qed.

(** ** Requests to the API *)

Section APIFacts.

Context {LowerError ServerListResponse PinValidationResponse WGKeysUpdateResponse
         GeoLookupResponse : Type}.
Variable requestRaw :
  string -> string -> RequestBody -> list (string * string) ->
  string * Z * option LowerError.
Variable Unmarshal_ServerList : string -> LowerError + ServerListResponse.
Variable Unmarshal_PinValidation : string -> LowerError + PinValidationResponse.
Variable Unmarshal_WGKeysUpdate : string -> LowerError + WGKeysUpdateResponse.
Variable config_GetAuthCredentials : string.


(** X18.  [DoRequestByAlias] answers nil data and a nil error for every
    alias but the geo-lookup one; for that one it fails when the IP
    version is neither IPv4 nor IPv6, and otherwise passes on what the
    lookup gave; it never returns data together with an error. *)
Theorem DoRequestByAlias_cases (protocol_IPv4 protocol_IPv6 : Z)
    (singletonFunc :
       unit -> GeoLookupResponse * option string * option (@api_error LowerError))
    (apiAlias : string) (ipTypeRequired : Z) :
  let answer := DoRequestByAlias protocol_IPv4 protocol_IPv6 singletonFunc apiAlias ipTypeRequired in
  (apiAlias <> GeoLookupApiAlias -> answer = (None, None)) /\
  (apiAlias = GeoLookupApiAlias -> ipTypeRequired <> protocol_IPv4 -> ipTypeRequired <> protocol_IPv6 ->
   answer = (None, Some GeoLookupIPVersionNotDefined)) /\
  (apiAlias = GeoLookupApiAlias -> ipTypeRequired = protocol_IPv4 \/ ipTypeRequired = protocol_IPv6 ->
   answer = match singletonFunc tt with
            | (_, _, Some err) => (None, Some err)
            | (_, rawData, None) => (rawData, None)
            end) /\
  ~ (is_Some (fst answer) /\ is_Some (snd answer)).
Proof.
  cbv zeta. unfold DoRequestByAlias, GeoLookup.
  destruct (String.eqb_spec apiAlias GeoLookupApiAlias) as [Ha|Ha].
  - destruct (Z.eqb_spec ipTypeRequired protocol_IPv4), (Z.eqb_spec ipTypeRequired protocol_IPv6);
      cbn [negb andb];
      destruct (singletonFunc tt) as [[loc raw] [err|]]; cbn [fst snd];
      repeat split; try done; try (intros _ [?|?]; done);
      try (intros [[? ?] [? ?]]; done).
  - repeat split; try done. intros [[? ?] _]. done.
Qed.

End APIFacts.
